(** * LocalSEO-CitationBot: the NAP citation pipeline, embedded and verified

    A shallow embedding of the Python sources

      - [utils/text_utils.py]   (phone formatting),
      - [utils/file_utils.py]   (report file name),
      - [config.py]             (directory list, word bounds),
      - [agents/base_agent.py], [agents/researcher_agent.py],
        [agents/citation_builder_agent.py], [agents/summary_agent.py],
      - [main.py]               ([run_workflow]),

    followed by the theorems about them.

    Conventions of the embedding.

    - A Python [str] is a Rocq [string]; a character is an 8-bit [ascii],
      so the model covers strings over the code points 0..255.  On these,
      [\d] of [re] is exactly ['0'..'9'] and the white space of
      [str.split()] / [str.strip()] is 9..13, 28..32, 133 and 160.
    - A dynamically typed value that the pipeline stores in its
      dictionaries is a [value]: [None], a [bool] or a [str].
    - A Python [dict] with string keys is an insertion-ordered association
      list with the update-in-place semantics of [d[k] = v].
    - A call that may raise returns [exc A = exn + A]; an exception is
      represented by its [str(e)] rendering, the only thing the code ever
      reads from it.
    - Everything outside the process (the browser-driven extraction, the
      directory look-ups, the random source, the clock, the file system)
      is a field of the record [World].
    - Logging, progress bars and [time.sleep] do not influence any result
      and are left out. *)

From Stdlib Require Import String Ascii List Arith Bool Lia.
From Stdlib Require Import DecimalString.
Import ListNotations.
Open Scope list_scope.
Open Scope string_scope.

(* ===================================================================== *)
(** * Python strings *)
(* ===================================================================== *)

Module PyStr.

(** [c.isdigit()] as used by [\d] / [\D] of [re] on code points 0..255. *)
Definition is_digit (c : ascii) : bool :=
  ((48 <=? nat_of_ascii c) && (nat_of_ascii c <=? 57))%nat.

(** White space in the sense of [str.split()] and [str.strip()]. *)
Definition is_space (c : ascii) : bool :=
  let n := nat_of_ascii c in
  (((9 <=? n) && (n <=? 13)) || ((28 <=? n) && (n <=? 32))
   || (n =? 133) || (n =? 160))%nat.

(** [c.isalnum()] on code points 0..255. *)
Definition is_alnum (c : ascii) : bool :=
  let n := nat_of_ascii c in
  (((48 <=? n) && (n <=? 57)) || ((65 <=? n) && (n <=? 90))
   || ((97 <=? n) && (n <=? 122))
   || (n =? 170) || (n =? 178) || (n =? 179) || (n =? 181)
   || (n =? 185) || (n =? 186) || ((188 <=? n) && (n <=? 190))
   || ((192 <=? n) && (n <=? 214)) || ((216 <=? n) && (n <=? 246))
   || (248 <=? n))%nat.

(** [bool(s)] of a string: non-empty. *)
Definition nonempty (s : string) : bool :=
  match s with EmptyString => false | String _ _ => true end.

(** [s[i:j]] and [s[i:]] for indices [0 <= i <= j]. *)
Definition slice (i j : nat) (s : string) : string := substring i (j - i) s.
Definition slice_from (i : nat) (s : string) : string :=
  substring i (String.length s - i) s.

(** Keep the characters that satisfy [p]. *)
Fixpoint filter (p : ascii -> bool) (s : string) : string :=
  match s with
  | EmptyString => EmptyString
  | String c s' => if p c then String c (filter p s') else filter p s'
  end.

Fixpoint map (f : ascii -> ascii) (s : string) : string :=
  match s with
  | EmptyString => EmptyString
  | String c s' => String (f c) (map f s')
  end.

Fixpoint forallb (p : ascii -> bool) (s : string) : bool :=
  match s with
  | EmptyString => true
  | String c s' => p c && forallb p s'
  end.

(** [re.sub(r'\D', '', s)]. *)
Definition digits_only (s : string) : string := filter is_digit s.

Fixpoint rev_onto (acc s : string) : string :=
  match s with
  | EmptyString => acc
  | String c s' => rev_onto (String c acc) s'
  end.
Definition rev (s : string) : string := rev_onto EmptyString s.

(** [s.lstrip()], [s.rstrip()], [s.strip()]. *)
Fixpoint lstrip (s : string) : string :=
  match s with
  | EmptyString => EmptyString
  | String c s' => if is_space c then lstrip s' else s
  end.
Definition rstrip (s : string) : string := rev (lstrip (rev s)).
Definition strip (s : string) : string := rstrip (lstrip s).

(** [sep.join(parts)]. *)
Fixpoint join (sep : string) (parts : list string) : string :=
  match parts with
  | [] => EmptyString
  | [p] => p
  | p :: rest => p ++ sep ++ join sep rest
  end.

(** [s.split(sep)] for a non-empty [sep]: cut at every left-most,
    non-overlapping occurrence.  [skip] counts the characters of an
    occurrence still to be passed over, [cur] is the piece read so far,
    reversed. *)
Fixpoint split_aux (sep : string) (skip : nat) (cur : string) (s : string)
  : list string :=
  match s with
  | EmptyString => [rev cur]
  | String c s' =>
      match skip with
      | S k => split_aux sep k cur s'
      | O =>
          if prefix sep s
          then rev cur :: split_aux sep (String.length sep - 1) EmptyString s'
          else split_aux sep 0 (String c cur) s'
      end
  end.
Definition split (sep s : string) : list string :=
  split_aux sep 0 EmptyString s.

(** [s.replace(old, new)] for a non-empty [old]. *)
Definition replace (old new s : string) : string := join new (split old s).

(** [s.split()]: the maximal runs of non-white-space characters. *)
Fixpoint split_ws_aux (cur : string) (s : string) : list string :=
  match s with
  | EmptyString =>
      match cur with EmptyString => [] | _ => [rev cur] end
  | String c s' =>
      if is_space c
      then match cur with
           | EmptyString => split_ws_aux EmptyString s'
           | _ => rev cur :: split_ws_aux EmptyString s'
           end
      else split_ws_aux (String c cur) s'
  end.
Definition split_ws (s : string) : list string := split_ws_aux EmptyString s.

(** A word: a non-empty string without white space. *)
Definition no_space (s : string) : bool :=
  forallb (fun c => negb (is_space c)) s.
Definition is_word (s : string) : bool := nonempty s && no_space s.

(** [s.upper()], [s.lower()] and [s.capitalize()] on ASCII letters
    (the directory identifiers they are applied to are host names).
    Only the letters a-z and A-Z change case: on a string that holds a
    letter of code point 128..255 Python also maps that letter, so these
    agree with Python on ASCII strings only. *)
Definition upper_char (c : ascii) : ascii :=
  let n := nat_of_ascii c in
  if ((97 <=? n) && (n <=? 122))%nat then ascii_of_nat (n - 32) else c.
Definition lower_char (c : ascii) : ascii :=
  let n := nat_of_ascii c in
  if ((65 <=? n) && (n <=? 90))%nat then ascii_of_nat (n + 32) else c.
Definition upper (s : string) : string := map upper_char s.
Definition lower (s : string) : string := map lower_char s.
Definition capitalize (s : string) : string :=
  match s with
  | EmptyString => EmptyString
  | String c s' => String (upper_char c) (lower s')
  end.

(** [str(n)] for a non-negative integer. *)
Definition of_nat (n : nat) : string := NilEmpty.string_of_uint (Nat.to_uint n).

(** [sub in s]. *)
Fixpoint contains (sub s : string) : bool :=
  prefix sub s ||
  match s with
  | EmptyString => false
  | String _ s' => contains sub s'
  end.

End PyStr.

(* ===================================================================== *)
(** * Dynamically typed values, dictionaries, exceptions *)
(* ===================================================================== *)

Inductive value : Type :=
| VNone
| VBool (b : bool)
| VStr (s : string).

(** [bool(v)]. *)
Definition truthy (v : value) : bool :=
  match v with
  | VNone => false
  | VBool b => b
  | VStr s => PyStr.nonempty s
  end.

(** [str(v)], which is what an f-string field [{v}] renders. *)
Definition py_str (v : value) : string :=
  match v with
  | VNone => "None"
  | VBool true => "True"
  | VBool false => "False"
  | VStr s => s
  end.

(** The values a field of a business record can hold: [None] or a string. *)
Definition none_or_str (v : value) : bool :=
  match v with
  | VBool _ => false
  | _ => true
  end.

(** [v == w] on values. *)
Definition value_eqb (v w : value) : bool :=
  match v, w with
  | VNone, VNone => true
  | VBool a, VBool b => Bool.eqb a b
  | VStr a, VStr b => String.eqb a b
  | _, _ => false
  end.

Module Dict.

Definition t (V : Type) : Type := list (string * V).

Definition empty {V} : t V := [].

(** [d.get(k)], [None] of Rocq standing for an absent key. *)
Fixpoint lookup {V} (d : t V) (k : string) : option V :=
  match d with
  | [] => None
  | (k', v) :: d' => if String.eqb k' k then Some v else lookup d' k
  end.

(** [d[k] = v]: overwrite in place, or append a new key. *)
Fixpoint set {V} (d : t V) (k : string) (v : V) : t V :=
  match d with
  | [] => [(k, v)]
  | (k', v') :: d' =>
      if String.eqb k' k then (k, v) :: d' else (k', v') :: set d' k v
  end.

Definition keys {V} (d : t V) : list string := List.map fst d.

(** [len(d)]. *)
Definition len {V} (d : t V) : nat := List.length d.

End Dict.

(** The dictionaries that carry business data between the stages. *)
Definition dict : Type := Dict.t value.

(** [d.get(k)]: an absent key reads as [None]. *)
Definition dict_get (d : dict) (k : string) : value :=
  match Dict.lookup d k with Some v => v | None => VNone end.

(** [d.get(k, dflt)]: the default is used for an absent key only. *)
Definition dict_get_default (d : dict) (k : string) (dflt : value) : value :=
  match Dict.lookup d k with Some v => v | None => dflt end.

(** An exception, by its [str(e)]. *)
Definition exn : Type := string.
Definition exc (A : Type) : Type := (exn + A)%type.

Definition ret {A} (a : A) : exc A := inr a.
Definition raise {A} (e : exn) : exc A := inl e.
Definition bind {A B} (m : exc A) (k : A -> exc B) : exc B :=
  match m with
  | inl e => inl e
  | inr a => k a
  end.
(** [try: m  except Exception as e: h(e)]. *)
Definition try_except {A} (m : exc A) (h : exn -> A) : A :=
  match m with
  | inl e => h e
  | inr a => a
  end.

Notation "x <- m ;; k" := (bind m (fun x => k))
  (at level 61, m at next level, right associativity).

(** [d[k]]: raises [KeyError] on an absent key. *)
Definition dict_item (d : dict) (k : string) : exc value :=
  match Dict.lookup d k with
  | Some v => ret v
  | None => raise ("'" ++ k ++ "'")
  end.

(* ===================================================================== *)
(** * utils/text_utils.py *)
(* ===================================================================== *)

(** [format_phone_number(phone)] for a [str] argument. *)
Definition format_phone_number (phone : string) : string :=
  if negb (PyStr.nonempty phone) then ""
  else
    let digits := PyStr.digits_only phone in
    if (String.length digits =? 10)%nat then
      "(" ++ PyStr.slice 0 3 digits ++ ") " ++ PyStr.slice 3 6 digits
          ++ "-" ++ PyStr.slice_from 6 digits
    else if (String.length digits =? 11)%nat
            && (match get 0 digits with
                | Some c => Ascii.eqb c "1"
                | None => false
                end) then
      "(" ++ PyStr.slice 1 4 digits ++ ") " ++ PyStr.slice 4 7 digits
          ++ "-" ++ PyStr.slice_from 7 digits
    else phone.

(** The same call on a dynamically typed argument: a falsy value takes the
    early [return ""], a string is formatted, and any other value makes
    [re.sub] raise [TypeError]. *)
Definition format_phone_number_dyn (phone : value) : exc string :=
  if negb (truthy phone) then ret ""
  else match phone with
       | VStr s => ret (format_phone_number s)
       | _ => raise "expected string or bytes-like object, got 'bool'"
       end.


(** The ten digits [a b c d e f g h i j] in the form "(abc) def-ghij". *)
Definition grouped (a b c d e f g h i j : ascii) : string :=
  String "(" (String a (String b (String c (String ")" (String " "
    (String d (String e (String f (String "-"
      (String g (String h (String i (String j EmptyString))))))))))))).

(** The line feed of the f-string escapes. *)
Definition nl : string := String "010"%char EmptyString.

(* ===================================================================== *)
(** * config.py *)
(* ===================================================================== *)

(** The tenth and eleventh literals of the source have no comma between
    them, so Python joins them into one list element. *)
Definition BUSINESS_DIRECTORIES : list string :=
  [ "https://www.yelp.com";
    "https://www.yellowpages.com";
    "https://www.bbb.org";
    "https://www.foursquare.com";
    "https://www.manta.com";
    "https://www.superpages.com";
    "https://www.chamberofcommerce.com";
    "https://www.mapquest.com";
    "https://www.citysearch.com";
    "https://www.tripadvisor.com" ++ "https://www.hotfrog.in";
    "https://www.provenexpert.com";
    "https://www.businessseek.biz/";
    "https://tupalo.com/" ].

Definition OUTPUT_DIRECTORY : string := "data/output".

(** Minimum and maximum number of words of the summary. *)
Definition SUMMARY_WORD_COUNT : nat * nat := (100, 150).

(* ===================================================================== *)
(** * The world outside the process *)
(* ===================================================================== *)

Record World : Type := {
  (** names of the environment variables that are set ([os.environ]) *)
  environ : list string;
  (** [os.makedirs(path, exist_ok=True)] *)
  makedirs : string -> exc unit;
  (** the browser session of the extractor on a URL: the name, address and
      phone it finds ([None] for a field it does not find), or the
      exception of a failed automation *)
  scrape : string -> exc (option string * option string * option string);
  (** [ResearcherAgent._check_directory(directory_url, search_query,
      business_data)]: fetches and inspects a search page; returns the
      presence decision or raises *)
  _check_directory : string -> string -> dict -> exc bool;
  (** the [i]-th call of [randbelow(n)] made by [random.sample] *)
  randbelow : nat -> nat -> nat;
  (** [datetime.now().strftime(format)] *)
  strftime : string -> string;
  (** opening [filepath] for writing and writing [content] to it *)
  write_file : string -> string -> exc unit
}.

(* ===================================================================== *)
(** * utils/file_utils.py *)
(* ===================================================================== *)

Definition ensure_directory_exists (w : World) (directory : string) : exc unit :=
  makedirs w directory.

(** [os.path.join(directory, filename)] for a relative [filename] and a
    non-empty [directory] without a trailing slash, the only way it is
    called. *)
Definition path_join (directory filename : string) : string :=
  directory ++ "/" ++ filename.

Definition save_text_file (w : World) (content filename directory : string)
  : exc string :=
  _ <- ensure_directory_exists w directory ;;
  let filepath := path_join directory filename in
  _ <- write_file w filepath content ;;
  ret filepath.

(** [generate_output_filename(business_name)] with the default extension.
    Iterating over a value that is not a string raises [TypeError]. *)
Definition generate_output_filename (w : World) (business_name : value)
  : exc string :=
  match business_name with
  | VStr s =>
      let clean_name :=
        PyStr.map (fun c => if PyStr.is_alnum c then c else "_"%char) s in
      let clean_name := PyStr.slice 0 30 clean_name in
      let timestamp := strftime w "%Y%m%d_%H%M%S" in
      ret (clean_name ++ "_" ++ timestamp ++ "." ++ "txt")
  | VNone => raise "'NoneType' object is not iterable"
  | VBool _ => raise "'bool' object is not iterable"
  end.

(* ===================================================================== *)
(** * agents/base_agent.py *)
(* ===================================================================== *)

(** What an agent's [run] returns: [Success a] is the dictionary
    [{"success": True, ...}] with the keys of [a]; [Failure e] is the
    dictionary [{"success": False, "error": e}]. *)
Inductive Result (A : Type) : Type :=
| Success (a : A)
| Failure (error : string).
Arguments Success {A} a.
Arguments Failure {A} error.

Module BaseAgent.

(** [handle_error(error)]: [{"success": False, "error": str(error)}]. *)
Definition handle_error {A} (error : exn) : Result A := Failure error.

(** The same dictionary where the result is kept as a plain [dict]. *)
Definition handle_error_dict (error : exn) : dict :=
  [("success", VBool false); ("error", VStr error)].

End BaseAgent.

(** [result.get("success")] is truthy. *)
Definition succeeded {A} (r : Result A) : bool :=
  match r with Success _ => true | Failure _ => false end.

(* ===================================================================== *)
(** * agents/extractor_agent.py *)
(* ===================================================================== *)

Module ExtractorAgent.

Definition of_option (o : option string) : value :=
  match o with Some s => VStr s | None => VNone end.

(** [run(google_maps_url)]: the result dictionary assembled from what
    the browser session found; any exception of the session ends in
    [handle_error]. *)
Definition run (w : World) (google_maps_url : string) : dict :=
  try_except
    (found <- scrape w google_maps_url ;;
     let '(name, address, phone) := found in
     let name := of_option name in
     let address := of_option address in
     let phone := of_option phone in
     ret [ ("success", VBool (truthy name && truthy address && truthy phone));
           ("partial_success",
             VBool (truthy name || truthy address || truthy phone));
           ("name", name);
           ("address", address);
           ("phone", phone);
           ("source_url", VStr google_maps_url) ])
    BaseAgent.handle_error_dict.

End ExtractorAgent.

(* ===================================================================== *)
(** * agents/citation_builder_agent.py *)
(* ===================================================================== *)

Module CitationBuilderAgent.

Definition _format_generic_citation (name address phone : value)
           (directory : string) : string :=
  py_str name ++ nl ++ py_str address ++ nl ++ py_str phone ++ nl ++ nl
    ++ "Directory: " ++ PyStr.capitalize directory.

Definition _format_yelp_citation (name address phone : value) : string :=
  py_str name ++ nl ++ py_str address ++ nl ++ py_str phone ++ nl ++ nl
    ++ "Submission for Yelp Business Directory".

Definition _format_yellowpages_citation (name address phone : value) : string :=
  "Business Name: " ++ py_str name ++ nl
    ++ "Full Address: " ++ py_str address ++ nl
    ++ "Phone: " ++ py_str phone ++ nl ++ nl
    ++ "Yellow Pages Listing Information".

Definition _format_bbb_citation (name address phone : value) : string :=
  "Company: " ++ py_str name ++ nl
    ++ "Location: " ++ py_str address ++ nl
    ++ "Contact: " ++ py_str phone ++ nl ++ nl
    ++ "Better Business Bureau Registration Information".

Definition _format_foursquare_citation (name address phone : value) : string :=
  py_str name ++ nl
    ++ "Located at: " ++ py_str address ++ nl
    ++ "Call: " ++ py_str phone ++ nl ++ nl
    ++ "Foursquare Venue Information".

Definition _format_manta_citation (name address phone : value) : string :=
  "Business: " ++ py_str name ++ nl
    ++ "Address: " ++ py_str address ++ nl
    ++ "Phone Number: " ++ py_str phone ++ nl ++ nl
    ++ "Manta Business Listing".

Definition _format_superpages_citation (name address phone : value) : string :=
  py_str name ++ nl ++ py_str address ++ nl ++ py_str phone ++ nl ++ nl
    ++ "Superpages Directory Information".

Definition _format_chamber_citation (name address phone : value) : string :=
  "Member Business: " ++ py_str name ++ nl
    ++ "Business Address: " ++ py_str address ++ nl
    ++ "Contact Number: " ++ py_str phone ++ nl ++ nl
    ++ "Chamber of Commerce Directory Listing".

(** The [if]/[elif] chain of the loop body. *)
Definition format_citation (name address phone : value) (directory : string)
  : string :=
  if directory =? "yelp" then _format_yelp_citation name address phone
  else if directory =? "yellowpages" then
    _format_yellowpages_citation name address phone
  else if directory =? "bbb" then _format_bbb_citation name address phone
  else if directory =? "foursquare" then
    _format_foursquare_citation name address phone
  else if directory =? "manta" then _format_manta_citation name address phone
  else if directory =? "superpages" then
    _format_superpages_citation name address phone
  else if directory =? "chamberofcommerce" then
    _format_chamber_citation name address phone
  else _format_generic_citation name address phone directory.

(** The payload of a successful result: [{"citations": ...}]. *)
Record Citations : Type := { citations : Dict.t string }.

(** The body of the [try] block of [run]. *)
Definition run_try (business_data : dict) (selected_directories : list string)
  : exc Citations :=
  if negb (truthy (dict_get business_data "name")) then
    raise "Missing business name"
  else if match selected_directories with [] => true | _ => false end then
    ret {| citations := Dict.empty |}
  else
    name <- dict_item business_data "name" ;;
    let address :=
      dict_get_default business_data "address"
                       (VStr "Address pending verification") in
    let phone :=
      dict_get_default business_data "phone"
                       (VStr "Phone pending verification") in
    phone <- (if negb (value_eqb phone (VStr "Phone pending verification"))
              then p <- format_phone_number_dyn phone ;; ret (VStr p)
              else ret phone) ;;
    let citations :=
      fold_left
        (fun citations directory =>
           Dict.set citations directory
                    (format_citation name address phone directory))
        selected_directories Dict.empty in
    ret {| citations := citations |}.

(** [run(business_data, selected_directories)]. *)
Definition run (business_data : dict) (selected_directories : list string)
  : Result Citations :=
  try_except
    (r <- run_try business_data selected_directories ;; ret (Success r))
    BaseAgent.handle_error.

End CitationBuilderAgent.

(* ===================================================================== *)
(** * random.sample *)
(* ===================================================================== *)

(** [l[j] = x] for [j < len(l)]. *)
Fixpoint list_set {A} (l : list A) (j : nat) (x : A) : list A :=
  match l, j with
  | [], _ => []
  | _ :: l', O => x :: l'
  | y :: l', S j' => y :: list_set l' j' x
  end.

(** The loop of [random.sample] over a copy [pool] of the population,
    which is the branch the library takes for populations of at most 21
    elements (the directory list has 13): draw [j] below [n - i], take
    [pool[j]], and move the last unused element into the vacancy.  A draw
    is reduced modulo its bound, so that every [World] is a random
    source. *)
Fixpoint sample_pool {A} (w : World) (n i k : nat) (pool : list A) : list A :=
  match k with
  | O => []
  | S k' =>
      let j := randbelow w i (n - i) mod (n - i) in
      match nth_error pool j, nth_error pool (n - i - 1) with
      | Some x, Some last =>
          x :: sample_pool w n (S i) k' (list_set pool j last)
      | _, _ => []
      end
  end.

(** [random.sample(population, k)]. *)
Definition random_sample {A} (w : World) (population : list A) (k : nat)
  : exc (list A) :=
  let n := List.length population in
  if (n <? k)%nat then raise "Sample larger than population or is negative"
  else ret (sample_pool w n 0 k population).

(** The two positions of a population of [n] elements that the draws [r0]
    and [r1] select. *)
Definition sample_positions (n r0 r1 : nat) : nat * nat :=
  let j0 := r0 mod n in
  let j1 := r1 mod (n - 1) in
  (j0, if (j1 =? j0)%nat then n - 1 else j1).


(* ===================================================================== *)
(** * agents/researcher_agent.py *)
(* ===================================================================== *)

(** [v.split(sep)] and [v.strip()] on a dynamically typed receiver. *)
Definition value_split (sep : string) (v : value) : exc (list string) :=
  match v with
  | VStr s => ret (PyStr.split sep s)
  | VNone => raise "'NoneType' object has no attribute 'split'"
  | VBool _ => raise "'bool' object has no attribute 'split'"
  end.

Definition value_strip (v : value) : exc string :=
  match v with
  | VStr s => ret (PyStr.strip s)
  | VNone => raise "'NoneType' object has no attribute 'strip'"
  | VBool _ => raise "'bool' object has no attribute 'strip'"
  end.

Module ResearcherAgent.

(** An entry of [directories_checked]. *)
Record DirectoryCheck : Type := {
  url : string;
  exists_ : bool;
  error : option string
}.

(** The payload of a successful result. *)
Record Results : Type := {
  directories_checked : Dict.t DirectoryCheck;
  missing_directories : list string;
  selected_directories : list string
}.

(** [directory_url.split("//")[1].split("/")[0].replace("www.", "")]. *)
Definition domain_of (directory_url : string) : exc string :=
  match nth_error (PyStr.split "//" directory_url) 1 with
  | None => raise "list index out of range"
  | Some rest =>
      match PyStr.split "/" rest with
      | host :: _ => ret (PyStr.replace "www." "" host)
      | [] => raise "list index out of range"
      end
  end.

(** The search query: the name, followed by the first comma-separated
    part of the address when there is an address. *)
Definition search_query_of (business_data : dict) : exc string :=
  business_name <- dict_item business_data "name" ;;
  let business_address := dict_get_default business_data "address" (VStr "") in
  if truthy business_address
     && negb (value_eqb business_address (VStr "Address unavailable"))
  then
    parts <- value_split "," business_address ;;
    let address_parts := hd "" parts in
    ret (PyStr.strip (py_str business_name ++ " " ++ address_parts))
  else value_strip business_name.

(** One iteration of the loop over the directories, on the pair of
    [directories_checked] and [missing_directories]. *)
Definition check_step (w : World) (search_query : string) (business_data : dict)
           (st : Dict.t DirectoryCheck * list string) (directory_url : string)
  : exc (Dict.t DirectoryCheck * list string) :=
  let '(checked, missing) := st in
  domain <- domain_of directory_url ;;
  ret (match _check_directory w directory_url search_query business_data with
       | inr found =>
           (Dict.set checked domain
                     {| url := directory_url; exists_ := found; error := None |},
            if found then missing else (missing ++ [domain])%list)
       | inl e =>
           (Dict.set checked domain
                     {| url := directory_url; exists_ := false;
                        error := Some e |},
            (missing ++ [domain])%list)
       end).

Fixpoint check_all (w : World) (search_query : string) (business_data : dict)
         (directories : list string)
         (st : Dict.t DirectoryCheck * list string)
  : exc (Dict.t DirectoryCheck * list string) :=
  match directories with
  | [] => ret st
  | directory_url :: rest =>
      st' <- check_step w search_query business_data st directory_url ;;
      check_all w search_query business_data rest st'
  end.

(** The selection of the directories to build citations for. *)
Definition select (w : World) (missing : list string) : exc (list string) :=
  if (2 <=? List.length missing)%nat then random_sample w missing 2
  else ret missing.

(** The body of the [try] block of [run]. *)
Definition run_try (w : World) (business_data : dict) : exc Results :=
  if negb (truthy (dict_get business_data "name")) then
    raise "No business name provided"
  else
    search_query <- search_query_of business_data ;;
    st <- check_all w search_query business_data BUSINESS_DIRECTORIES
                    (Dict.empty, []) ;;
    let '(checked, missing) := st in
    selected <- select w missing ;;
    ret {| directories_checked := checked;
           missing_directories := missing;
           selected_directories := selected |}.

(** [run(business_data)]. *)
Definition run (w : World) (business_data : dict) : Result Results :=
  try_except
    (r <- run_try w business_data ;; ret (Success r))
    BaseAgent.handle_error.

End ResearcherAgent.

(** The domains of a list of directory URLs, as the loop computes them. *)
Fixpoint domains_of (directories : list string) : exc (list string) :=
  match directories with
  | [] => ret []
  | directory_url :: rest =>
      domain <- ResearcherAgent.domain_of directory_url ;;
      domains <- domains_of rest ;;
      ret (domain :: domains)
  end.

(** What the loop records for a directory, and whether it counts the
    directory as missing. *)
Definition entry_of (w : World) (search_query : string) (business_data : dict)
           (directory_url : string) : ResearcherAgent.DirectoryCheck :=
  match _check_directory w directory_url search_query business_data with
  | inr found =>
      {| ResearcherAgent.url := directory_url;
         ResearcherAgent.exists_ := found;
         ResearcherAgent.error := None |}
  | inl e =>
      {| ResearcherAgent.url := directory_url;
         ResearcherAgent.exists_ := false;
         ResearcherAgent.error := Some e |}
  end.

Definition is_missing (w : World) (search_query : string) (business_data : dict)
           (directory_url : string) : bool :=
  match _check_directory w directory_url search_query business_data with
  | inr found => negb found
  | inl _ => true
  end.

(* ===================================================================== *)
(** * agents/summary_agent.py *)
(* ===================================================================== *)

Module SummaryAgent.

(** The sentence appended to a summary that is too short. *)
Definition filler (business_name : value) : string :=
  " Maintaining consistent NAP information across business directories is crucial for local SEO and helps potential customers find accurate information about "
    ++ py_str business_name ++ ".".

(** The text of [_generate_summary] before the word count is looked at. *)
Definition render_summary (business_name : value) (directories_checked : nat)
           (missing_directories selected_directories : list string) : string :=
  let summary := "Research Summary for " ++ py_str business_name ++ nl ++ nl in
  let summary := summary ++
    "The research process began by extracting the business's Name, Address, and Phone (NAP) information from Google Maps. " in
  let summary := summary ++
    "This data was then used to search across " ++ PyStr.of_nat directories_checked
    ++ " business directories to determine where the business already has listings. " in
  let summary :=
    match missing_directories with
    | _ :: _ =>
        let summary := summary ++
          "The research found that " ++ py_str business_name
          ++ " is missing from " ++ PyStr.of_nat (List.length missing_directories)
          ++ " directories including "
          ++ PyStr.join ", " (firstn 3 missing_directories) in
        let summary :=
          if (3 <? List.length missing_directories)%nat
          then summary ++ " and "
                 ++ PyStr.of_nat (List.length missing_directories - 3)
                 ++ " others"
          else summary in
        summary ++ ". "
    | [] =>
        summary ++ "Interestingly, " ++ py_str business_name
          ++ " appears to be present in all checked directories. "
    end in
  let summary :=
    match selected_directories with
    | _ :: _ =>
        summary ++ "Based on the findings, NAP citations were prepared for "
          ++ PyStr.join ", " selected_directories ++ " "
          ++ "as these directories would provide valuable additional visibility for "
          ++ py_str business_name ++ ". "
    | [] =>
        summary ++
          "No directories were selected for citation building as the business appears to be well-represented across the checked platforms. "
    end in
  summary ++
    "The final citations were formatted according to each directory's specific requirements to ensure accuracy and consistency of the business information across the web.".

(** The check of the word count at the end of [_generate_summary]. *)
Definition bound_summary (min_words max_words : nat) (business_name : value)
           (summary : string) : string :=
  let words := PyStr.split_ws summary in
  if (List.length words <? min_words)%nat then summary ++ filler business_name
  else if (max_words <? List.length words)%nat then
    PyStr.join " " (firstn max_words words)
  else summary.

Definition _generate_summary (business_name : value) (directories_checked : nat)
           (missing_directories selected_directories : list string) : string :=
  let '(min_words, max_words) := SUMMARY_WORD_COUNT in
  bound_summary min_words max_words business_name
    (render_summary business_name directories_checked
                    missing_directories selected_directories).

(** The payload of a successful result. *)
Record Summary : Type := {
  summary : string;
  word_count : nat
}.

(** [run(business_data, research_results, citation_results)]. *)
Definition run (business_data : dict)
           (research_results : ResearcherAgent.Results)
           (citation_results : CitationBuilderAgent.Citations)
  : Result Summary :=
  try_except
    (let business_name :=
       dict_get_default business_data "name" (VStr "Unknown business") in
     let directories_checked :=
       Dict.len (ResearcherAgent.directories_checked research_results) in
     let missing_directories :=
       ResearcherAgent.missing_directories research_results in
     let selected_directories :=
       ResearcherAgent.selected_directories research_results in
     let summary :=
       _generate_summary business_name directories_checked
                         missing_directories selected_directories in
     ret (Success {| summary := summary;
                     word_count := List.length (PyStr.split_ws summary) |}))
    BaseAgent.handle_error.

End SummaryAgent.

(* ===================================================================== *)
(** * main.py *)
(* ===================================================================== *)

(** The agents whose [run] the orchestrator can await. *)
Inductive Agent : Type :=
| Extractor
| Researcher
| CitationBuilder
| SummaryGenerator.

(** A computation together with the log of the agent runs it awaited. *)
Definition Traced (A : Type) : Type := (list Agent * A)%type.

Definition tret {A} (a : A) : Traced A := ([], a).
Definition tbind {A B} (m : Traced A) (k : A -> Traced B) : Traced B :=
  let '(t1, a) := m in
  let '(t2, b) := k a in
  ((t1 ++ t2)%list, b).
(** [await agent.run(...)]: the run is logged and its result returned. *)
Definition await {A} (agent : Agent) (result : A) : Traced A := ([agent], result).

Notation "x <~ m ;; k" := (tbind m (fun x => k))
  (at level 61, m at next level, right associativity).

Definition get_output_directory (w : World) : string :=
  if existsb (String.eqb "STREAMLIT_RUNTIME") (environ w) then "temp_output"
  else if existsb (String.eqb "VERCEL") (environ w) then "/tmp/output"
  else OUTPUT_DIRECTORY.

Definition ensure_output_directory (w : World) : exc string :=
  let output_dir := get_output_directory w in
  _ <- makedirs w output_dir ;;
  ret output_dir.

(** The dictionary returned by a successful run. *)
Record Report : Type := {
  business_name : value;
  output_file : string;
  business_info : dict;
  directories_checked : nat;
  directories_missing : nat;
  missing_directories : list string;
  citations_created : nat;
  citations : Dict.t string;
  summary : string;
  content : string
}.

(** What [run_workflow] returns: the report, or
    [{"success": False, "stage": stage, "error": error}]. *)
Inductive WorkflowResult : Type :=
| Completed (r : Report)
| Halted (stage : string) (error : value).

(** The business information block of the report. *)
Definition business_information (extraction_results : dict) : exc string :=
  name <- dict_item extraction_results "name" ;;
  address <- dict_item extraction_results "address" ;;
  phone <- dict_item extraction_results "phone" ;;
  source_url <- dict_item extraction_results "source_url" ;;
  ret ("BUSINESS INFORMATION:" ++ nl
       ++ "Name: " ++ py_str name ++ nl
       ++ "Address: " ++ py_str address ++ nl
       ++ "Phone: " ++ py_str phone ++ nl
       ++ "Source URL: " ++ py_str source_url ++ nl ++ nl).

(** One block per citation, in the order of the dictionary. *)
Definition citation_blocks (citations : Dict.t string) (content : string)
  : string :=
  fold_left
    (fun content '(directory, citation) =>
       content ++ nl ++ "--- " ++ PyStr.upper directory ++ " CITATION ---" ++ nl
         ++ citation ++ nl
         ++ "-------------------------" ++ nl)
    citations content.

(** Step 5, the body of the [try] block that creates the output file. *)
Definition create_output (w : World) (output_dir : string)
           (extraction_results : dict)
           (research_results : ResearcherAgent.Results)
           (citations : Dict.t string) (summary : string) : exc Report :=
  name <- dict_item extraction_results "name" ;;
  filename <- generate_output_filename w name ;;
  let content := "NAP CITATION REPORT FOR " ++ py_str name ++ nl in
  let content :=
    content ++ "Generated on: " ++ strftime w "%Y-%m-%d %H:%M:%S" ++ nl ++ nl in
  info <- business_information extraction_results ;;
  let content := content ++ info in
  let content := content ++ "RESEARCH SUMMARY:" ++ nl in
  let content := content ++ summary ++ nl ++ nl in
  let content := content ++ "CITATIONS:" ++ nl in
  let content := citation_blocks citations content in
  filepath <- save_text_file w content filename output_dir ;;
  ret {| business_name := name;
         output_file := filepath;
         business_info := extraction_results;
         directories_checked :=
           Dict.len (ResearcherAgent.directories_checked research_results);
         directories_missing :=
           List.length (ResearcherAgent.missing_directories research_results);
         missing_directories :=
           ResearcherAgent.missing_directories research_results;
         citations_created := Dict.len citations;
         citations := citations;
         summary := summary;
         content := content |}.

(** "Ensure all fields are at least empty strings, not None": the three
    assignments that follow the validation of the name. *)
Definition fill_fields (extraction_results : dict) : dict :=
  let extraction_results :=
    Dict.set extraction_results "name"
             (dict_get_default extraction_results "name" (VStr "")) in
  let extraction_results :=
    Dict.set extraction_results "address"
             (dict_get_default extraction_results "address"
                               (VStr "Address unavailable")) in
  Dict.set extraction_results "phone"
           (dict_get_default extraction_results "phone"
                             (VStr "Phone unavailable")).

(** Steps 2 to 5, entered once the extraction has a name. *)
Definition run_stages (w : World) (output_dir : string)
           (extraction_results : dict) : Traced WorkflowResult :=
  research_results <~ await Researcher (ResearcherAgent.run w extraction_results) ;;
  match research_results with
  | Failure error => tret (Halted "research" (VStr error))
  | Success research_results =>
      citation_results <~
        await CitationBuilder
          (CitationBuilderAgent.run
             extraction_results
             (ResearcherAgent.selected_directories research_results)) ;;
      match citation_results with
      | Failure error => tret (Halted "citation_building" (VStr error))
      | Success citation_results =>
          summary_results <~
            await SummaryGenerator
              (SummaryAgent.run extraction_results research_results
                                citation_results) ;;
          match summary_results with
          | Failure error => tret (Halted "summary" (VStr error))
          | Success summary_results =>
              tret
                (try_except
                   (r <- create_output w output_dir extraction_results
                           research_results
                           (CitationBuilderAgent.citations citation_results)
                           (SummaryAgent.summary summary_results) ;;
                    ret (Completed r))
                   (fun e => Halted "output" (VStr e)))
          end
      end
  end.

(** [run_workflow(maps_url)] without a progress bar and a status text.
    The outer [exc] is an exception that leaves the function. *)
Definition run_workflow (w : World) (maps_url : string)
  : Traced (exc WorkflowResult) :=
  match ensure_output_directory w with
  | inl e => tret (raise e)
  | inr output_dir =>
      if negb (PyStr.nonempty maps_url)
         || negb (PyStr.nonempty (PyStr.strip maps_url))
      then tret (ret (Halted "validation" (VStr "Google Maps URL cannot be empty")))
      else
        extraction_results <~ await Extractor (ExtractorAgent.run w maps_url) ;;
        if negb (truthy (dict_get extraction_results "success"))
           && negb (truthy (dict_get extraction_results "partial_success"))
        then
          let error_msg :=
            dict_get_default extraction_results "error"
                             (VStr "Failed to extract required information") in
          tret (ret (Halted "extraction" error_msg))
        else if negb (truthy (dict_get extraction_results "name")) then
          let error_msg := "Failed to extract business name, which is required" in
          tret (ret (Halted "extraction" (VStr error_msg)))
        else
          let extraction_results := fill_fields extraction_results in
          r <~ run_stages w output_dir extraction_results ;;
          tret (ret r)
  end.

(* ===================================================================== *)
(** * utils/text_utils.py: the other helpers *)
(* ===================================================================== *)

(** [re.sub(r'\s+', ' ', text)]: every maximal run of white space becomes
    one space.  [in_run] tells that the previous character was white
    space. *)
Fixpoint collapse_spaces_aux (in_run : bool) (text : string) : string :=
  match text with
  | EmptyString => EmptyString
  | String c text' =>
      if PyStr.is_space c then
        if in_run then collapse_spaces_aux true text'
        else String " " (collapse_spaces_aux true text')
      else String c (collapse_spaces_aux false text')
  end.
Definition collapse_spaces (text : string) : string :=
  collapse_spaces_aux false text.

(** [clean_string(text)] for a [str] argument. *)
Definition clean_string (text : string) : string :=
  if negb (PyStr.nonempty text) then ""
  else
    let text := collapse_spaces text in
    PyStr.strip text.

(** [c in s] for a character [c]. *)
Fixpoint mem_char (c : ascii) (s : string) : bool :=
  match s with
  | EmptyString => false
  | String x s' => Ascii.eqb x c || mem_char c s'
  end.

(** [s.rsplit(' ', 1)[0]]: what stands before the last space of [s], and
    all of [s] when it has no space. *)
Fixpoint rsplit_space_head (s : string) : string :=
  match s with
  | EmptyString => EmptyString
  | String c s' =>
      if mem_char " " s' then String c (rsplit_space_head s')
      else if Ascii.eqb c " " then EmptyString
      else s
  end.

(** [truncate_text(text, max_length)] for a [str] and a non-negative
    [max_length] (150 by default). *)
Definition truncate_text (text : string) (max_length : nat) : string :=
  if negb (PyStr.nonempty text) || (String.length text <=? max_length)%nat
  then text
  else
    let truncated := rsplit_space_head (PyStr.slice 0 max_length text) in
    truncated ++ "...".

(* ===================================================================== *)
(** * main.py: the status chart of display_success_view *)
(* ===================================================================== *)

(** The rows [{"Directory": directory_name, "Status": status}] that
    [display_success_view] builds for its chart from the
    [missing_directories] of a result. *)
Definition directory_data (missing_directories : list string)
  : list (string * string) :=
  List.map
    (fun dir =>
       let directory_name :=
         hd "" (PyStr.split "." (PyStr.replace "https://www." "" dir)) in
       let status :=
         if existsb (String.eqb directory_name) missing_directories
         then "Missing" else "Present" in
       (directory_name, status))
    BUSINESS_DIRECTORIES.

(** The phone as [CitationBuilderAgent.run] writes it into the citations
    when the phone of the business data is [None] or a string: the
    placeholder for an absent key, the formatted number otherwise. *)
Definition citation_phone (business_data : dict) : string :=
  match Dict.lookup business_data "phone" with
  | None => "Phone pending verification"
  | Some (VStr p) => format_phone_number p
  | Some _ => ""
  end.

(** Likewise the address: the placeholder for an absent key, the value of
    the key otherwise. *)
Definition citation_address (business_data : dict) : value :=
  dict_get_default business_data "address" (VStr "Address pending verification").

(* ===================================================================== *)
(** * Fixtures *)
(* ===================================================================== *)

(** A world in which the browser session ends in [found], the look-up of a
    directory in [lookup], the [i]-th random draw is [draws i], no
    environment variable is set and every write succeeds. *)
Definition world_of (found : exc (option string * option string * option string))
           (lookup : string -> exc bool) (draws : nat -> nat) : World :=
  {| environ := [];
     makedirs := fun _ => ret tt;
     scrape := fun _ => found;
     _check_directory := fun directory_url _ _ => lookup directory_url;
     randbelow := fun i _ => draws i;
     strftime := fun format =>
       if format =? "%Y%m%d_%H%M%S" then "20240101_120000"
       else "2024-01-01 12:00:00";
     write_file := fun _ _ => ret tt |}.

(** A complete business record. *)
Definition joes_cafe : dict :=
  [ ("name", VStr "Joe's Cafe");
    ("address", VStr "12 Main Street, Springfield");
    ("phone", VStr "5551234567") ].

(** Every directory look-up fails with a network error. *)
Definition world_offline : World :=
  world_of (inr (Some "Joe's Cafe", Some "12 Main Street, Springfield",
                 Some "5551234567"))
           (fun _ => inl "Connection refused") (fun _ => 5).


(** The look-up of Yelp raises an exception without a message, the
    business is found everywhere else. *)
Definition world_silent_failure : World :=
  world_of (inr (Some "Joe's Cafe", Some "12 Main Street, Springfield",
                 Some "5551234567"))
           (fun directory_url =>
              if directory_url =? "https://www.yelp.com" then inl "" else inr true)
           (fun _ => 0).

(** The browser finds the name only; address and phone come back as empty
    strings. *)
Definition world_name_only : World :=
  world_of (inr (Some "Joe's Cafe", Some "", Some ""))
           (fun _ => inl "Connection refused") (fun _ => 5).

(** The browser finds the name only; address and phone are not found. *)
Definition world_name_alone : World :=
  world_of (inr (Some "Joe's Cafe", None, None))
           (fun _ => inl "Connection refused") (fun _ => 5).

(** The browser finds nothing at all. *)
Definition world_nothing_found : World :=
  world_of (inr (None, None, None)) (fun _ => inr false) (fun _ => 0).

(** The browser finds an address but no name. *)
Definition world_address_only : World :=
  world_of (inr (None, Some "12 Main Street, Springfield", None))
           (fun _ => inr false) (fun _ => 0).

(** The browser session cannot be started. *)
Definition world_browser_crash : World :=
  world_of (inl "session not created") (fun _ => inr false) (fun _ => 0).

(** Everything is found, but the report file cannot be written. *)
Definition world_disk_full : World :=
  {| environ := ["VERCEL"];
     makedirs := fun _ => ret tt;
     scrape := fun _ => inr (Some "Joe's Cafe", Some "12 Main Street, Springfield",
                             Some "5551234567");
     _check_directory := fun _ _ _ => inr false;
     randbelow := fun _ _ => 0;
     strftime := fun _ => "20240101_120000";
     write_file := fun _ _ => inl "No space left on device" |}.

(** The output directory cannot be created. *)
Definition world_read_only : World :=
  {| environ := [];
     makedirs := fun _ => inl "Read-only file system";
     scrape := fun _ => inr (Some "Joe's Cafe", None, None);
     _check_directory := fun _ _ _ => inr false;
     randbelow := fun _ _ => 0;
     strftime := fun _ => "20240101_120000";
     write_file := fun _ _ => ret tt |}.

Definition maps_url_example : string := "https://maps.google.com/?cid=1".

(** A business name of twenty-two words. *)
Definition long_name : value :=
  VStr "The Very Long And Winding Road Side Family Restaurant And Coffee House Of Greater Springfield And The Surrounding Tri County Area Incorporated".

(* ===================================================================== *)
(** * Theorems: phone formatting (utils/text_utils.py) *)
(* ===================================================================== *)

Section PhoneFormatting.

Import PyStr.

Lemma digits_only_cons_digit c s :
  is_digit c = true -> digits_only (String c s) = String c (digits_only s).
Proof. intros H. unfold digits_only. simpl. now rewrite H. Qed.

Lemma digits_only_cons_other c s :
  is_digit c = false -> digits_only (String c s) = digits_only s.
Proof. intros H. unfold digits_only. simpl. now rewrite H. Qed.

Lemma digits_only_all_digits s : forallb is_digit (digits_only s) = true.
Proof.
  induction s as [|c s IH]; simpl; auto.
  unfold digits_only in *. simpl.
  destruct (is_digit c) eqn:E; simpl; auto.
  now rewrite E, IH.
Qed.

Ltac digits_step :=
  first [ rewrite digits_only_cons_digit by assumption
        | rewrite digits_only_cons_other by reflexivity ].

Lemma digits_only_grouped a b c d e f g h i j :
  is_digit a = true -> is_digit b = true -> is_digit c = true ->
  is_digit d = true -> is_digit e = true -> is_digit f = true ->
  is_digit g = true -> is_digit h = true -> is_digit i = true ->
  is_digit j = true ->
  digits_only (grouped a b c d e f g h i j)
  = String a (String b (String c (String d (String e (String f
      (String g (String h (String i (String j EmptyString))))))))).
Proof.
  intros. unfold grouped. repeat digits_step. reflexivity.
Qed.

Lemma format_grouped a b c d e f g h i j :
  is_digit a = true -> is_digit b = true -> is_digit c = true ->
  is_digit d = true -> is_digit e = true -> is_digit f = true ->
  is_digit g = true -> is_digit h = true -> is_digit i = true ->
  is_digit j = true ->
  format_phone_number (grouped a b c d e f g h i j)
  = grouped a b c d e f g h i j.
Proof.
  intros. unfold format_phone_number.
  rewrite digits_only_grouped by assumption. reflexivity.
Qed.

Lemma length_10_inv s :
  String.length s = 10 ->
  exists a b c d e f g h i j,
    s = String a (String b (String c (String d (String e (String f
          (String g (String h (String i (String j EmptyString))))))))).
Proof.
  intros H.
  do 10 (destruct s as [|? s]; [discriminate H|]).
  destruct s; [|discriminate H].
  repeat eexists.
Qed.

Lemma length_11_inv s :
  String.length s = 11 ->
  exists k a b c d e f g h i j,
    s = String k (String a (String b (String c (String d (String e (String f
          (String g (String h (String i (String j EmptyString)))))))))).
Proof.
  intros H.
  do 11 (destruct s as [|? s]; [discriminate H|]).
  destruct s; [|discriminate H].
  repeat eexists.
Qed.

Ltac split_digits H :=
  simpl in H; repeat (apply andb_prop in H; destruct H as [? H]).

(** Ten digits are grouped. *)
Lemma format_phone_number_10 s :
  String.length (digits_only s) = 10 ->
  exists a b c d e f g h i j,
    digits_only s
    = String a (String b (String c (String d (String e (String f
        (String g (String h (String i (String j EmptyString)))))))))
    /\ forallb is_digit (digits_only s) = true
    /\ format_phone_number s = grouped a b c d e f g h i j.
Proof.
  intros H.
  destruct (length_10_inv _ H) as (a & b & c & d & e & f & g & h & i & j & E).
  exists a, b, c, d, e, f, g, h, i, j.
  split; [exact E|]. split; [apply digits_only_all_digits|].
  unfold format_phone_number.
  destruct s as [|c0 s]; [discriminate H|].
  cbn [nonempty negb]. rewrite E. reflexivity.
Qed.

(** Eleven digits with a leading 1 lose the 1 and are grouped. *)
Lemma format_phone_number_11 s :
  String.length (digits_only s) = 11 ->
  get 0 (digits_only s) = Some "1"%char ->
  exists a b c d e f g h i j,
    digits_only s
    = String "1" (String a (String b (String c (String d (String e (String f
        (String g (String h (String i (String j EmptyString))))))))))
    /\ format_phone_number s = grouped a b c d e f g h i j.
Proof.
  intros H H1.
  destruct (length_11_inv _ H)
    as (k & a & b & c & d & e & f & g & h & i & j & E).
  rewrite E in H1. simpl in H1. injection H1 as ->.
  exists a, b, c, d, e, f, g, h, i, j.
  split; [exact E|].
  unfold format_phone_number.
  destruct s as [|c0 s]; [discriminate H|].
  cbn [nonempty negb]. rewrite E. reflexivity.
Qed.

(** Every other input is returned as given. *)
Lemma format_phone_number_other s :
  String.length (digits_only s) <> 10 ->
  ~ (String.length (digits_only s) = 11
     /\ get 0 (digits_only s) = Some "1"%char) ->
  format_phone_number s = s.
Proof.
  intros H10 H11. unfold format_phone_number.
  destruct s as [|c0 s]; [reflexivity|].
  cbn [nonempty negb].
  destruct (Nat.eqb_spec (String.length (digits_only (String c0 s))) 10)
    as [E|_]; [contradiction|].
  destruct (Nat.eqb_spec (String.length (digits_only (String c0 s))) 11)
    as [E|_]; [|reflexivity].
  destruct (get 0 (digits_only (String c0 s))) as [k|] eqn:G; [|reflexivity].
  destruct (Ascii.eqb_spec k "1"); [|reflexivity].
  subst k. exfalso. apply H11. split; [exact E|reflexivity].
Qed.

(** C3.  [format_phone_number] maps "5551234567" and "15551234567" to
    "(555) 123-4567" and returns "notaphone" unchanged; in general an
    input with ten digits is grouped as "(XXX) XXX-XXXX", an input with
    eleven digits of which the first is 1 is grouped without that 1, and
    every other input is returned as given. *)
Theorem format_phone_number_spec :
  format_phone_number "5551234567" = "(555) 123-4567"
  /\ format_phone_number "15551234567" = "(555) 123-4567"
  /\ format_phone_number "notaphone" = "notaphone"
  /\ (forall s digits,
        digits = digits_only s -> String.length digits = 10 ->
        format_phone_number s
        = "(" ++ slice 0 3 digits ++ ") " ++ slice 3 6 digits
              ++ "-" ++ slice_from 6 digits)
  /\ (forall s digits,
        digits = digits_only s -> String.length digits = 11 ->
        get 0 digits = Some "1"%char ->
        format_phone_number s
        = "(" ++ slice 1 4 digits ++ ") " ++ slice 4 7 digits
              ++ "-" ++ slice_from 7 digits)
  /\ (forall s,
        String.length (digits_only s) <> 10 ->
        ~ (String.length (digits_only s) = 11
           /\ get 0 (digits_only s) = Some "1"%char) ->
        format_phone_number s = s).
Proof.
  split; [reflexivity|]. split; [reflexivity|]. split; [reflexivity|].
  split; [|split].
  - intros s digits -> H.
    destruct (format_phone_number_10 s H)
      as (a & b & c & d & e & f & g & h & i & j & E & _ & F).
    rewrite F, E. reflexivity.
  - intros s digits -> H H1.
    destruct (format_phone_number_11 s H H1)
      as (a & b & c & d & e & f & g & h & i & j & E & F).
    rewrite F, E. reflexivity.
  - exact format_phone_number_other.
Qed.

Lemma format_phone_number_spec_witness :
  format_phone_number "+1 (555) 123-4567" = "(555) 123-4567"
  /\ format_phone_number "555.123.4567" = "(555) 123-4567"
  /\ format_phone_number "12345" = "12345".
Proof.
  destruct format_phone_number_spec as (_ & _ & _ & H10 & H11 & Hother).
  split; [|split].
  - apply (H11 "+1 (555) 123-4567" "15551234567"); reflexivity.
  - apply (H10 "555.123.4567" "5551234567"); reflexivity.
  - apply (Hother "12345").
    + simpl. discriminate.
    + simpl. intros [H _]. discriminate H.
Defined.

(** C10.  [format_phone_number] is idempotent: formatting a formatted
    phone string again yields the same string. *)
Theorem format_phone_number_idempotent (s : string) :
  format_phone_number (format_phone_number s) = format_phone_number s.
Proof.
  destruct (Nat.eq_dec (String.length (digits_only s)) 10) as [H10|H10].
  - destruct (format_phone_number_10 s H10)
      as (a & b & c & d & e & f & g & h & i & j & E & D & F).
    rewrite F. rewrite E in D. split_digits D.
    apply format_grouped; assumption.
  - destruct (Nat.eq_dec (String.length (digits_only s)) 11) as [H11|H11].
    + destruct (get 0 (digits_only s)) as [k|] eqn:G.
      * destruct (Ascii.eqb_spec k "1") as [->|K].
        -- destruct (format_phone_number_11 s H11 G)
             as (a & b & c & d & e & f & g & h & i & j & E & F).
           rewrite F.
           pose proof (digits_only_all_digits s) as D.
           rewrite E in D. split_digits D.
           apply format_grouped; assumption.
        -- rewrite (format_phone_number_other s H10).
           ++ now apply format_phone_number_other; [|intros [_ X]; congruence].
           ++ intros [_ X]. congruence.
      * rewrite (format_phone_number_other s H10).
        -- now apply format_phone_number_other; [|intros [_ X]; congruence].
        -- intros [_ X]. congruence.
    + rewrite (format_phone_number_other s H10).
      * now apply format_phone_number_other; [|intros [X _]; congruence].
      * intros [X _]. congruence.
Qed.

End PhoneFormatting.

(* ===================================================================== *)
(** * Lemmas on strings and dictionaries *)
(* ===================================================================== *)

Section StringFacts.

Import PyStr.

Lemma prefix_append sub b : prefix sub (sub ++ b) = true.
Proof.
  induction sub as [|c sub IH]; simpl.
  - destruct b; reflexivity.
  - destruct (ascii_dec c c) as [_|N]; [exact IH|contradiction].
Qed.

Lemma contains_unfold sub s :
  contains sub s
  = prefix sub s
    || match s with EmptyString => false | String _ s' => contains sub s' end.
Proof. destruct s; reflexivity. Qed.

Lemma contains_here sub b : contains sub (sub ++ b) = true.
Proof. rewrite contains_unfold, prefix_append. reflexivity. Qed.

Lemma contains_skip sub a s :
  contains sub s = true -> contains sub (a ++ s) = true.
Proof.
  intros H. induction a as [|c a IH]; simpl; [exact H|].
  rewrite IH. apply orb_true_r.
Qed.

Lemma append_assoc (a b c : string) : (a ++ b) ++ c = a ++ b ++ c.
Proof. induction a as [|x a IH]; simpl; congruence. Qed.

Lemma append_nil_r (a : string) : a ++ "" = a.
Proof. induction a as [|x a IH]; simpl; congruence. Qed.

End StringFacts.

Section DictFacts.

Context {V : Type}.

Lemma lookup_set (d : Dict.t V) k v k' :
  Dict.lookup (Dict.set d k v) k'
  = if String.eqb k k' then Some v else Dict.lookup d k'.
Proof.
  induction d as [|[k0 v0] d IH]; simpl.
  - reflexivity.
  - destruct (String.eqb_spec k0 k) as [->|N]; simpl.
    + destruct (String.eqb_spec k k'); reflexivity.
    + destruct (String.eqb_spec k0 k') as [->|N'].
      * destruct (String.eqb_spec k k'); [congruence|reflexivity].
      * exact IH.
Qed.

Lemma lookup_set_same (d : Dict.t V) k v :
  Dict.lookup (Dict.set d k v) k = Some v.
Proof. rewrite lookup_set, String.eqb_refl. reflexivity. Qed.

Lemma lookup_set_other (d : Dict.t V) k v k' :
  k <> k' -> Dict.lookup (Dict.set d k v) k' = Dict.lookup d k'.
Proof.
  intros N. rewrite lookup_set.
  destruct (String.eqb_spec k k'); [contradiction|reflexivity].
Qed.

Lemma in_keys_lookup (d : Dict.t V) k :
  In k (Dict.keys d) <-> Dict.lookup d k <> None.
Proof.
  induction d as [|[k0 v0] d IH]; simpl.
  - split; [intros []|congruence].
  - destruct (String.eqb_spec k0 k) as [->|N].
    + split; [discriminate|auto].
    + rewrite <- IH. split; [intros [E|I]; [contradiction|exact I]|auto].
Qed.

(** The dictionary filled by a loop [for k in ks: d[k] = f(k)]. *)
Lemma lookup_filled (f : string -> V) ks (d : Dict.t V) k :
  Dict.lookup (fold_left (fun acc x => Dict.set acc x (f x)) ks d) k
  = if in_dec string_dec k ks then Some (f k) else Dict.lookup d k.
Proof.
  revert d. induction ks as [|x ks IH]; intros d; simpl.
  - reflexivity.
  - rewrite IH.
    destruct (in_dec string_dec k ks) as [I|NI].
    + destruct (string_dec x k); reflexivity.
    + destruct (string_dec x k) as [->|N].
      * apply lookup_set_same.
      * apply lookup_set_other. exact N.
Qed.

End DictFacts.

(* ===================================================================== *)
(** * Theorems: the Citation Builder *)
(* ===================================================================== *)

Section CitationBuilder.

Import CitationBuilderAgent.

Ltac find_placeholder :=
  repeat first [ apply contains_here | apply contains_skip ].

Lemma format_citation_contains_address name phone directory a :
  PyStr.contains a (format_citation name (VStr a) phone directory) = true.
Proof.
  unfold format_citation.
  repeat match goal with
         | |- context [if ?b then _ else _] => destruct b
         end;
    cbv beta delta [_format_yelp_citation _format_yellowpages_citation
      _format_bbb_citation _format_foursquare_citation _format_manta_citation
      _format_superpages_citation _format_chamber_citation
      _format_generic_citation];
    change (py_str (VStr a)) with a;
    find_placeholder.
Qed.

Lemma format_citation_contains_phone name address directory p :
  PyStr.contains p (format_citation name address (VStr p) directory) = true.
Proof.
  unfold format_citation.
  repeat match goal with
         | |- context [if ?b then _ else _] => destruct b
         end;
    cbv beta delta [_format_yelp_citation _format_yellowpages_citation
      _format_bbb_citation _format_foursquare_citation _format_manta_citation
      _format_superpages_citation _format_chamber_citation
      _format_generic_citation];
    change (py_str (VStr p)) with p;
    find_placeholder.
Qed.

(** The phone as the citations show it. *)
Lemma phone_rendering (bd : dict) :
  (forall v, Dict.lookup bd "phone" = Some v -> none_or_str v = true) ->
  exists p,
    (let phone := dict_get_default bd "phone" (VStr "Phone pending verification") in
     if negb (value_eqb phone (VStr "Phone pending verification"))
     then p <- format_phone_number_dyn phone ;; ret (VStr p)
     else ret phone) = inr (VStr p)
    /\ (Dict.lookup bd "phone" = None -> p = "Phone pending verification").
Proof.
  intros T. unfold dict_get_default.
  destruct (Dict.lookup bd "phone") as [v|] eqn:L.
  - specialize (T v eq_refl).
    destruct v as [|b|s]; [|discriminate T|].
    + exists "". split; [reflexivity|discriminate].
    + cbv zeta.
      destruct (value_eqb (VStr s) (VStr "Phone pending verification")) eqn:E.
      * exists s. split; [reflexivity|discriminate].
      * exists (format_phone_number s). split; [|discriminate].
        simpl. unfold format_phone_number_dyn.
        destruct s; reflexivity.
  - exists "Phone pending verification". split; reflexivity.
Qed.

(** X9 (absent keys).  For a business-data dictionary whose name is a non-empty
    string (and whose phone, where present, is [None] or a string), [run]
    does not fail: it returns success with one citation per selected
    directory, and an address or phone whose key is absent from the
    dictionary is replaced by the placeholder "Address pending
    verification" / "Phone pending verification" in every citation. *)
Theorem citation_builder_substitutes_placeholders
        (business_data : dict) (selected_directories : list string) (n : string) :
  Dict.lookup business_data "name" = Some (VStr n) ->
  n <> "" ->
  (forall v, Dict.lookup business_data "phone" = Some v -> none_or_str v = true) ->
  exists cits address phone,
    run business_data selected_directories = Success {| citations := cits |}
    /\ (forall d, In d selected_directories ->
                  Dict.lookup cits d
                  = Some (format_citation (VStr n) address phone d))
    /\ (forall d, ~ In d selected_directories -> Dict.lookup cits d = None)
    /\ (Dict.lookup business_data "address" = None ->
        address = VStr "Address pending verification"
        /\ forall d, In d selected_directories ->
             exists c, Dict.lookup cits d = Some c
               /\ PyStr.contains "Address pending verification" c = true)
    /\ (Dict.lookup business_data "phone" = None ->
        phone = VStr "Phone pending verification"
        /\ forall d, In d selected_directories ->
             exists c, Dict.lookup cits d = Some c
               /\ PyStr.contains "Phone pending verification" c = true).
Proof.
  intros Hname Hn Hphone.
  destruct (phone_rendering business_data Hphone) as (p & Hp & Hp').
  set (address := dict_get_default business_data "address"
                                   (VStr "Address pending verification")).
  set (f := fun d => format_citation (VStr n) address (VStr p) d).
  exists (fold_left (fun acc d => Dict.set acc d (f d))
                    selected_directories Dict.empty), address, (VStr p).
  assert (Hin : forall d, In d selected_directories ->
            Dict.lookup (fold_left (fun acc d => Dict.set acc d (f d))
                                   selected_directories Dict.empty) d
            = Some (f d)).
  { intros d I. rewrite lookup_filled.
    destruct (in_dec string_dec d selected_directories); [reflexivity|contradiction]. }
  split; [|split; [exact Hin|split; [|split]]].
  - unfold run, run_try, dict_get, dict_item. rewrite Hname.
    assert (T : truthy (VStr n) = true) by (destruct n; [contradiction|reflexivity]).
    rewrite T. cbn [negb].
    destruct selected_directories as [|d0 ds]; [reflexivity|].
    cbn [bind ret]. cbv zeta in Hp. rewrite Hp. reflexivity.
  - intros d NI. rewrite lookup_filled.
    destruct (in_dec string_dec d selected_directories); [contradiction|reflexivity].
  - intros A.
    assert (EA : address = VStr "Address pending verification").
    { unfold address, dict_get_default. rewrite A. reflexivity. }
    split; [exact EA|].
    intros d I. eexists. split; [apply Hin, I|].
    unfold f. rewrite EA. apply format_citation_contains_address.
  - intros P. rewrite (Hp' P).
    split; [reflexivity|].
    intros d I. eexists. split; [apply Hin, I|].
    unfold f. rewrite (Hp' P). apply format_citation_contains_phone.
Qed.

Lemma citation_builder_substitutes_placeholders_witness :
  exists cits address phone,
    run [("name", VStr "Joe's Cafe")] ["yelp"; "bbb.org"]
    = Success {| citations := cits |}
    /\ (forall d, In d ["yelp"; "bbb.org"] ->
                  Dict.lookup cits d
                  = Some (format_citation (VStr "Joe's Cafe") address phone d))
    /\ (forall d, ~ In d ["yelp"; "bbb.org"] -> Dict.lookup cits d = None)
    /\ (Dict.lookup [("name", VStr "Joe's Cafe")] "address" = None ->
        address = VStr "Address pending verification"
        /\ forall d, In d ["yelp"; "bbb.org"] ->
             exists c, Dict.lookup cits d = Some c
               /\ PyStr.contains "Address pending verification" c = true)
    /\ (Dict.lookup [("name", VStr "Joe's Cafe")] "phone" = None ->
        phone = VStr "Phone pending verification"
        /\ forall d, In d ["yelp"; "bbb.org"] ->
             exists c, Dict.lookup cits d = Some c
               /\ PyStr.contains "Phone pending verification" c = true).
Proof.
  apply (citation_builder_substitutes_placeholders
           [("name", VStr "Joe's Cafe")] ["yelp"; "bbb.org"] "Joe's Cafe").
  - reflexivity.
  - discriminate.
  - intros v H. discriminate H.
Defined.

(** C2, evaluated.  The placeholders stand in for absent keys only.  For
    the business data the pipeline hands over when the extractor found no
    address and no phone (both keys present, holding [None], or holding
    empty strings), [run] succeeds, but the citation shows the text "None"
    or an empty line for the address, an empty line for the phone, and no
    placeholder. *)
Theorem citation_builder_renders_missing_values :
  run [("name", VStr "Joe's Cafe"); ("address", VNone); ("phone", VNone)]
      ["yelp"]
  = Success
      {| citations :=
           [("yelp",
             "Joe's Cafe" ++ nl ++ "None" ++ nl ++ "" ++ nl ++ nl
               ++ "Submission for Yelp Business Directory")] |}
  /\ run [("name", VStr "Joe's Cafe"); ("address", VStr ""); ("phone", VStr "")]
         ["yelp"]
     = Success
         {| citations :=
              [("yelp",
                "Joe's Cafe" ++ nl ++ "" ++ nl ++ "" ++ nl ++ nl
                  ++ "Submission for Yelp Business Directory")] |}
  /\ PyStr.contains "pending verification"
        ("Joe's Cafe" ++ nl ++ "None" ++ nl ++ "" ++ nl ++ nl
           ++ "Submission for Yelp Business Directory") = false
  /\ PyStr.contains "pending verification"
        ("Joe's Cafe" ++ nl ++ "" ++ nl ++ "" ++ nl ++ nl
           ++ "Submission for Yelp Business Directory") = false.
Proof. repeat split. Qed.

(** A name that is missing, [None] or empty is falsy. *)
Lemma missing_name_falsy (business_data : dict) :
  Dict.lookup business_data "name" = None
  \/ Dict.lookup business_data "name" = Some VNone
  \/ Dict.lookup business_data "name" = Some (VStr "") ->
  truthy (dict_get business_data "name") = false.
Proof. unfold dict_get. intros [H|[H|H]]; rewrite H; reflexivity. Qed.

(** C8.  For business data whose name is missing, [None] or empty, the
    [ValueError] raised inside [run] is caught: [run] returns the failure
    dictionary with the non-empty error "Missing business name", which
    carries no citations. *)
Theorem citation_builder_missing_name
        (business_data : dict) (selected_directories : list string) :
  Dict.lookup business_data "name" = None
  \/ Dict.lookup business_data "name" = Some VNone
  \/ Dict.lookup business_data "name" = Some (VStr "") ->
  run_try business_data selected_directories = raise "Missing business name"
  /\ run business_data selected_directories = Failure "Missing business name"
  /\ succeeded (run business_data selected_directories) = false
  /\ "Missing business name" <> "".
Proof.
  intros H. apply missing_name_falsy in H.
  assert (E : run_try business_data selected_directories
              = raise "Missing business name").
  { unfold run_try. rewrite H. reflexivity. }
  split; [exact E|].
  unfold run. rewrite E.
  split; [reflexivity|]. split; [reflexivity|discriminate].
Qed.

Lemma citation_builder_missing_name_witness :
  run_try [("address", VStr "1 Main St"); ("name", VStr "")] ["yelp"]
  = raise "Missing business name"
  /\ run [("address", VStr "1 Main St"); ("name", VStr "")] ["yelp"]
     = Failure "Missing business name"
  /\ succeeded (run [("address", VStr "1 Main St"); ("name", VStr "")] ["yelp"])
     = false
  /\ "Missing business name" <> "".
Proof.
  apply (citation_builder_missing_name
           [("address", VStr "1 Main St"); ("name", VStr "")] ["yelp"]).
  right. right. reflexivity.
Defined.

(** C9.  For business data with a non-empty name and an empty list of
    selected directories, [run] returns success with an empty citations
    mapping. *)
Theorem citation_builder_no_directories (business_data : dict) :
  truthy (dict_get business_data "name") = true ->
  run business_data [] = Success {| citations := Dict.empty |}
  /\ succeeded (run business_data []) = true.
Proof.
  intros H. unfold run, run_try. rewrite H. split; reflexivity.
Qed.

Lemma citation_builder_no_directories_witness :
  run [("name", VStr "Joe's Cafe")] [] = Success {| citations := Dict.empty |}
  /\ succeeded (run [("name", VStr "Joe's Cafe")] []) = true.
Proof.
  apply (citation_builder_no_directories [("name", VStr "Joe's Cafe")]).
  reflexivity.
Defined.

End CitationBuilder.

(* ===================================================================== *)
(** * Theorems: random.sample *)
(* ===================================================================== *)

Section Sampling.

Context {A : Type}.

Lemma length_list_set (l : list A) j x :
  List.length (list_set l j x) = List.length l.
Proof.
  revert j. induction l as [|y l IH]; intros [|j]; simpl; auto.
Qed.

Lemma nth_error_list_set_same (l : list A) j x :
  j < List.length l -> nth_error (list_set l j x) j = Some x.
Proof.
  revert j. induction l as [|y l IH]; intros [|j] H; simpl in *;
    try lia; auto.
  apply IH. lia.
Qed.

Lemma nth_error_list_set_other (l : list A) j x i :
  i <> j -> nth_error (list_set l j x) i = nth_error l i.
Proof.
  revert j i. induction l as [|y l IH]; intros [|j] [|i] H; simpl;
    try reflexivity; try contradiction.
  apply IH. lia.
Qed.

Lemma nth_error_some (l : list A) i :
  i < List.length l -> exists x, nth_error l i = Some x.
Proof.
  intros H. destruct (nth_error l i) eqn:E; [eauto|].
  apply nth_error_None in E. lia.
Qed.

(** The sample is read off at [sample_positions]. *)
Lemma sample_two_at_positions (w : World) (population : list A) :
  let n := List.length population in
  2 <= n ->
  exists x y,
    random_sample w population 2 = inr [x; y]
    /\ nth_error population
         (fst (sample_positions n (randbelow w 0 n) (randbelow w 1 (n - 1))))
       = Some x
    /\ nth_error population
         (snd (sample_positions n (randbelow w 0 n) (randbelow w 1 (n - 1))))
       = Some y.
Proof.
  intros n H.
  unfold random_sample. fold n.
  destruct (Nat.ltb_spec n 2) as [L|_]; [lia|].
  unfold ret, sample_positions. cbn [sample_pool fst snd].
  rewrite !Nat.sub_0_r.
  set (j0 := randbelow w 0 n mod n).
  set (j1 := randbelow w 1 (n - 1) mod (n - 1)).
  assert (B0 : j0 < n) by (apply Nat.mod_upper_bound; lia).
  assert (B1 : j1 < n - 1) by (apply Nat.mod_upper_bound; lia).
  destruct (nth_error_some population j0 B0) as [x Hx].
  destruct (nth_error_some population (n - 1)) as [last Hlast]; [fold n; lia|].
  rewrite Hx, Hlast.
  set (pool := list_set population j0 last).
  assert (Lp : List.length pool = n) by apply length_list_set.
  destruct (nth_error_some pool (n - 1 - 1)) as [z Hz]; [lia|].
  rewrite Hz.
  destruct (Nat.eqb_spec j1 j0) as [E|N].
  - assert (Hy : nth_error pool j1 = Some last).
    { rewrite E. apply nth_error_list_set_same. exact B0. }
    rewrite Hy. exists x, last. auto.
  - destruct (nth_error_some population j1) as [y Hy]; [fold n; lia|].
    assert (Hy' : nth_error pool j1 = Some y).
    { unfold pool. rewrite nth_error_list_set_other by exact N. exact Hy. }
    rewrite Hy'. exists x, y. auto.
Qed.

(** Uniformity of the selection: the draws [(r0, r1)] with [r0 < n] and
    [r1 < n - 1] correspond one to one to the ordered pairs of different
    positions below [n], so that equally likely draws make every such
    pair equally likely. *)
Lemma sample_positions_bijective (n : nat) :
  2 <= n ->
  (forall r0 r1,
      let p := sample_positions n r0 r1 in
      fst p < n /\ snd p < n /\ fst p <> snd p)
  /\ (forall r0 r1 r0' r1',
        r0 < n -> r1 < n - 1 -> r0' < n -> r1' < n - 1 ->
        sample_positions n r0 r1 = sample_positions n r0' r1' ->
        r0 = r0' /\ r1 = r1')
  /\ (forall i j,
        i < n -> j < n -> i <> j ->
        exists r0 r1,
          r0 < n /\ r1 < n - 1 /\ sample_positions n r0 r1 = (i, j)).
Proof.
  intros H. split; [|split].
  - intros r0 r1. unfold sample_positions. cbn [fst snd].
    assert (B0 : r0 mod n < n) by (apply Nat.mod_upper_bound; lia).
    assert (B1 : r1 mod (n - 1) < n - 1) by (apply Nat.mod_upper_bound; lia).
    destruct (Nat.eqb_spec (r1 mod (n - 1)) (r0 mod n)); lia.
  - intros r0 r1 r0' r1' B0 B1 B0' B1'. unfold sample_positions.
    rewrite !Nat.mod_small by assumption.
    destruct (Nat.eqb_spec r1 r0), (Nat.eqb_spec r1' r0');
      intros E; injection E; lia.
  - intros i j Bi Bj N.
    destruct (Nat.eq_dec j (n - 1)) as [E|E].
    + exists i, i. unfold sample_positions.
      rewrite !Nat.mod_small by lia. rewrite Nat.eqb_refl.
      repeat split; try lia. congruence.
    + exists i, j. unfold sample_positions.
      rewrite !Nat.mod_small by lia.
      destruct (Nat.eqb_spec j i); [lia|]. repeat split; lia.
Qed.

Lemma sample_two_distinct (w : World) (population : list A) :
  2 <= List.length population ->
  NoDup population ->
  exists x y,
    random_sample w population 2 = inr [x; y]
    /\ x <> y /\ In x population /\ In y population.
Proof.
  intros H ND.
  destruct (sample_two_at_positions w population H) as (x & y & E & Hx & Hy).
  destruct (sample_positions_bijective _ H) as (R & _ & _).
  specialize (R (randbelow w 0 (List.length population))
                (randbelow w 1 (List.length population - 1))).
  cbv zeta in R. destruct R as (_ & _ & N).
  exists x, y. split; [exact E|].
  split; [|split; eapply nth_error_In; eassumption].
  intros ->. apply N.
  rewrite NoDup_nth_error in ND. apply ND.
  - apply nth_error_Some. congruence.
  - congruence.
Qed.

End Sampling.

(* ===================================================================== *)
(** * Theorems: the Researcher *)
(* ===================================================================== *)

Section ResearcherLoop.

Import ResearcherAgent.

Variable w : World.
Variable search_query : string.
Variable business_data : dict.

Local Abbreviation record :=
  (fun (c : Dict.t DirectoryCheck) (p : string * string) =>
     Dict.set c (snd p) (entry_of w search_query business_data (fst p))).
Local Abbreviation miss :=
  (fun p : string * string =>
     is_missing w search_query business_data (fst p)).

Lemma check_step_eq checked missing directory_url domain :
  domain_of directory_url = inr domain ->
  check_step w search_query business_data (checked, missing) directory_url
  = inr (Dict.set checked domain
                  (entry_of w search_query business_data directory_url),
         if is_missing w search_query business_data directory_url
         then (missing ++ [domain])%list else missing).
Proof.
  intros E. unfold check_step, entry_of, is_missing. rewrite E. cbn [bind ret].
  destruct (_check_directory w directory_url search_query business_data)
    as [e|[|]]; reflexivity.
Qed.

(** The loop never raises when every URL has a domain; it records one
    entry per directory and appends the domains of the missing ones. *)
Lemma check_all_eq directories :
  forall domains checked missing,
    domains_of directories = inr domains ->
    check_all w search_query business_data directories (checked, missing)
    = inr (fold_left record (combine directories domains) checked,
           (missing ++ List.map snd (List.filter miss (combine directories domains)))%list).
Proof.
  induction directories as [|u directories IH]; intros domains checked missing H.
  - injection H as <-. simpl. rewrite app_nil_r. reflexivity.
  - simpl in H.
    destruct (domain_of u) as [e|d] eqn:Ed; [discriminate H|].
    destruct (domains_of directories) as [e|ds] eqn:Eds; [discriminate H|].
    injection H as <-.
    cbn [check_all]. rewrite (check_step_eq _ _ _ _ Ed). cbn [bind].
    rewrite (IH ds _ _ eq_refl). cbn [combine fold_left List.filter fst snd].
    destruct (is_missing w search_query business_data u).
    + cbn [List.map snd]. rewrite <- app_assoc. reflexivity.
    + reflexivity.
Qed.

Lemma lookup_recorded_other pairs :
  forall checked k,
    ~ In k (List.map snd pairs) ->
    Dict.lookup (fold_left record pairs checked) k = Dict.lookup checked k.
Proof.
  induction pairs as [|[u d] pairs IH]; intros checked k NI; simpl.
  - reflexivity.
  - simpl in NI. rewrite IH by tauto.
    apply lookup_set_other. tauto.
Qed.

(** With pairwise different domains no entry is overwritten. *)
Lemma lookup_recorded pairs :
  forall checked u d,
    NoDup (List.map snd pairs) ->
    In (u, d) pairs ->
    Dict.lookup (fold_left record pairs checked) d
    = Some (entry_of w search_query business_data u).
Proof.
  induction pairs as [|[u0 d0] pairs IH]; intros checked u d ND I; simpl.
  - destruct I.
  - simpl in ND. inversion ND as [|? ? NI ND']; subst.
    destruct I as [E|I].
    + injection E as -> ->.
      rewrite lookup_recorded_other by exact NI.
      apply lookup_set_same.
    + apply IH; assumption.
Qed.

Lemma NoDup_map_snd_filter (p : string * string -> bool) pairs :
  NoDup (List.map snd pairs) -> NoDup (List.map snd (List.filter p pairs)).
Proof.
  induction pairs as [|[u d] pairs IH]; intros ND; simpl.
  - constructor.
  - simpl in ND. inversion ND as [|? ? NI ND']; subst.
    destruct (p (u, d)); [|auto].
    simpl. constructor; [|auto].
    intros I. apply NI.
    apply in_map_iff in I. destruct I as ([u' d'] & E & I). simpl in E. subst d'.
    apply filter_In in I. destruct I as [I _].
    apply in_map_iff. exists (u', d). split; [reflexivity|exact I].
Qed.

Lemma in_missing_recorded pairs u d :
  In (u, d) pairs ->
  is_missing w search_query business_data u = true ->
  In d (List.map snd (List.filter miss pairs)).
Proof.
  intros I M. apply in_map_iff. exists (u, d). split; [reflexivity|].
  apply filter_In. split; [exact I|exact M].
Qed.

End ResearcherLoop.

Section Researcher.

Import ResearcherAgent.

(** The thirteen configured directories and their domains. *)
Lemma configured_domains :
  domains_of BUSINESS_DIRECTORIES
  = inr [ "yelp.com"; "yellowpages.com"; "bbb.org"; "foursquare.com";
          "manta.com"; "superpages.com"; "chamberofcommerce.com";
          "mapquest.com"; "citysearch.com"; "tripadvisor.comhttps:";
          "provenexpert.com"; "businessseek.biz"; "tupalo.com" ].
Proof. vm_compute. reflexivity. Qed.

Local Abbreviation domains :=
  [ "yelp.com"; "yellowpages.com"; "bbb.org"; "foursquare.com";
    "manta.com"; "superpages.com"; "chamberofcommerce.com";
    "mapquest.com"; "citysearch.com"; "tripadvisor.comhttps:";
    "provenexpert.com"; "businessseek.biz"; "tupalo.com" ].

Lemma configured_domains_distinct :
  NoDup (List.map snd (combine BUSINESS_DIRECTORIES domains)).
Proof.
  assert (E : nodup string_dec (List.map snd (combine BUSINESS_DIRECTORIES domains))
              = List.map snd (combine BUSINESS_DIRECTORIES domains))
    by (vm_compute; reflexivity).
  rewrite <- E. apply NoDup_nodup.
Qed.

Lemma select_eq (w : World) (missing : list string) :
  NoDup missing ->
  exists selected,
    select w missing = inr selected
    /\ (2 <= List.length missing ->
        List.length selected = 2 /\ NoDup selected /\ incl selected missing)
    /\ (List.length missing < 2 -> selected = missing).
Proof.
  intros ND. unfold select.
  destruct (Nat.leb_spec 2 (List.length missing)) as [L|L].
  - destruct (sample_two_distinct w missing L ND) as (x & y & E & N & Ix & Iy).
    exists [x; y]. split; [exact E|]. split; [|lia].
    intros _. split; [reflexivity|]. split.
    + constructor; [simpl; intuition congruence|].
      constructor; [simpl; tauto|constructor].
    + intros z [<-|[<-|[]]]; assumption.
  - exists missing. split; [reflexivity|]. split; [lia|reflexivity].
Qed.

(** The shape of every successful run of the Researcher. *)
Lemma run_success_inv (w : World) (business_data : dict) (r : Results) :
  run w business_data = Success r ->
  exists q,
    search_query_of business_data = inr q
    /\ directories_checked r
       = fold_left
           (fun c p => Dict.set c (snd p) (entry_of w q business_data (fst p)))
           (combine BUSINESS_DIRECTORIES domains) Dict.empty
    /\ missing_directories r
       = List.map snd
           (List.filter (fun p => is_missing w q business_data (fst p))
                        (combine BUSINESS_DIRECTORIES domains))
    /\ select w (missing_directories r) = inr (selected_directories r).
Proof.
  unfold run, run_try. intros H.
  destruct (negb (truthy (dict_get business_data "name"))); [discriminate H|].
  destruct (search_query_of business_data) as [e|q]; [discriminate H|].
  exists q. split; [reflexivity|].
  cbn [bind] in H.
  rewrite (check_all_eq w q business_data _ _ _ _ configured_domains) in H.
  cbn [bind app] in H.
  destruct (select w _) as [e|selected] eqn:S; [discriminate H|].
  cbn [bind ret try_except] in H. injection H as <-.
  cbn [directories_checked missing_directories selected_directories].
  auto.
Qed.

(** The Researcher succeeds as soon as it has a name and a search query. *)
Lemma run_succeeds (w : World) (business_data : dict) q :
  truthy (dict_get business_data "name") = true ->
  search_query_of business_data = inr q ->
  exists r, run w business_data = Success r.
Proof.
  intros T Q. unfold run, run_try. rewrite T, Q. cbn [negb bind].
  rewrite (check_all_eq w q business_data _ _ _ _ configured_domains).
  cbn [bind app].
  destruct (select_eq w
              (List.map snd
                 (List.filter (fun p => is_missing w q business_data (fst p))
                              (combine BUSINESS_DIRECTORIES domains))))
    as (selected & S & _).
  { apply NoDup_map_snd_filter, configured_domains_distinct. }
  rewrite S. cbn [bind ret try_except]. eauto.
Qed.



Lemma in_configured directories :
  forall domains,
    domains_of directories = inr domains ->
    forall u, In u directories ->
         exists d, domain_of u = inr d /\ In (u, d) (combine directories domains).
Proof.
  induction directories as [|u0 directories IH]; intros ds H u I.
  - destruct I.
  - simpl in H.
    destruct (domain_of u0) as [e|d0] eqn:Ed; [discriminate H|].
    destruct (domains_of directories) as [e|ds'] eqn:Eds; [discriminate H|].
    injection H as <-.
    destruct I as [<-|I].
    + exists d0. split; [exact Ed|left; reflexivity].
    + destruct (IH ds' eq_refl u I) as (d & E & I').
      exists d. split; [exact E|right; exact I'].
Qed.

(** C5 (amended).  When the check of a configured directory raises an
    exception, the Researcher still returns success; its result records
    that directory with [exists] false and the message of the exception as
    the error (a non-empty string exactly when the message is non-empty),
    lists the directory's domain in [missing_directories], and has an
    entry for every configured directory. *)
Theorem researcher_survives_failed_check
        (w : World) (business_data : dict) (q directory_url e : string) :
  truthy (dict_get business_data "name") = true ->
  search_query_of business_data = inr q ->
  In directory_url BUSINESS_DIRECTORIES ->
  _check_directory w directory_url q business_data = inl e ->
  exists r domain,
    run w business_data = Success r
    /\ domain_of directory_url = inr domain
    /\ Dict.lookup (directories_checked r) domain
       = Some {| url := directory_url; exists_ := false; error := Some e |}
    /\ In domain (missing_directories r)
    /\ (forall u, In u BUSINESS_DIRECTORIES ->
          exists d, domain_of u = inr d
            /\ Dict.lookup (directories_checked r) d
               = Some (entry_of w q business_data u)).
Proof.
  intros T Q I E.
  destruct (run_succeeds w business_data q T Q) as [r R].
  destruct (run_success_inv w business_data r R) as (q' & Q' & C & M & _).
  rewrite Q in Q'. injection Q' as <-.
  destruct (in_configured _ _ configured_domains directory_url I) as (d & D & P).
  exists r, d. split; [exact R|]. split; [exact D|].
  split; [|split].
  - rewrite C.
    rewrite (lookup_recorded w q business_data _ _ _ _
               configured_domains_distinct P).
    unfold entry_of. rewrite E. reflexivity.
  - rewrite M. apply (in_missing_recorded w q business_data _ directory_url d P).
    unfold is_missing. rewrite E. reflexivity.
  - intros u Iu.
    destruct (in_configured _ _ configured_domains u Iu) as (d' & D' & P').
    exists d'. split; [exact D'|].
    rewrite C.
    apply (lookup_recorded w q business_data _ _ _ _
             configured_domains_distinct P').
Qed.

Lemma researcher_survives_failed_check_witness :
  exists r domain,
    run world_offline joes_cafe = Success r
    /\ domain_of "https://www.bbb.org" = inr domain
    /\ Dict.lookup (directories_checked r) domain
       = Some {| url := "https://www.bbb.org"; exists_ := false;
                 error := Some "Connection refused" |}
    /\ In domain (missing_directories r)
    /\ (forall u, In u BUSINESS_DIRECTORIES ->
          exists d, domain_of u = inr d
            /\ Dict.lookup (directories_checked r) d
               = Some (entry_of world_offline "Joe's Cafe 12 Main Street"
                                joes_cafe u)).
Proof.
  apply (researcher_survives_failed_check
           world_offline joes_cafe "Joe's Cafe 12 Main Street"
           "https://www.bbb.org" "Connection refused").
  - reflexivity.
  - vm_compute. reflexivity.
  - simpl. tauto.
  - reflexivity.
Defined.

(** C5 as stated fails where the exception has no message: the check of
    Yelp raises, and the error string recorded for it is empty. *)
Lemma researcher_error_string_can_be_empty :
  _check_directory world_silent_failure "https://www.yelp.com"
                   "Joe's Cafe 12 Main Street" joes_cafe = inl ""
  /\ search_query_of joes_cafe = inr "Joe's Cafe 12 Main Street"
  /\ exists r,
      run world_silent_failure joes_cafe = Success r
      /\ Dict.lookup (directories_checked r) "yelp.com"
         = Some {| url := "https://www.yelp.com"; exists_ := false;
                   error := Some "" |}
      /\ missing_directories r = ["yelp.com"].
Proof.
  split; [reflexivity|]. split; [vm_compute; reflexivity|].
  eexists. split; [vm_compute; reflexivity|].
  split; reflexivity.
Qed.

End Researcher.


(* ===================================================================== *)
(** * Theorems: the Summary Generator *)
(* ===================================================================== *)

Section Words.

Import PyStr.

Lemma rev_onto_nonempty s : forall acc, nonempty acc = true ->
  nonempty (rev_onto acc s) = true.
Proof.
  induction s as [|c s IH]; intros acc H; simpl; [exact H|].
  apply IH. reflexivity.
Qed.

Lemma no_space_cons c s :
  no_space (String c s) = negb (is_space c) && no_space s.
Proof. reflexivity. Qed.

Lemma rev_onto_no_space s : forall acc,
  no_space acc = true -> no_space s = true -> no_space (rev_onto acc s) = true.
Proof.
  induction s as [|c s IH]; intros acc Ha Hs; cbn [rev_onto]; [exact Ha|].
  rewrite no_space_cons in Hs. apply andb_prop in Hs. destruct Hs as [Hc Hs].
  apply IH; [|exact Hs]. rewrite no_space_cons. now rewrite Hc, Ha.
Qed.

Lemma rev_onto_rev_onto s : forall acc acc',
  rev_onto acc' (rev_onto acc s) = rev_onto (s ++ acc') acc.
Proof.
  induction s as [|c s IH]; intros acc acc'; simpl; [reflexivity|].
  rewrite IH. reflexivity.
Qed.

Lemma rev_involutive s : rev (rev s) = s.
Proof.
  unfold rev. rewrite rev_onto_rev_onto. simpl. apply append_nil_r.
Qed.

Lemma rev_is_word cur :
  nonempty cur = true -> no_space cur = true -> is_word (rev cur) = true.
Proof.
  intros N S. unfold is_word, rev.
  destruct cur as [|c cur]; [discriminate N|]. cbn [rev_onto].
  rewrite rev_onto_nonempty by reflexivity.
  rewrite no_space_cons in S. apply andb_prop in S. destruct S as [Sc S].
  apply rev_onto_no_space; [rewrite no_space_cons; now rewrite Sc|exact S].
Qed.

(** [split()] returns words only. *)
Lemma split_ws_aux_words s : forall cur,
  no_space cur = true -> Forall (fun x => is_word x = true) (split_ws_aux cur s).
Proof.
  induction s as [|c s IH]; intros cur S; cbn [split_ws_aux].
  - destruct cur; constructor; [|constructor].
    apply rev_is_word; [reflexivity|exact S].
  - destruct (is_space c) eqn:Ec.
    + destruct cur.
      * apply IH. reflexivity.
      * constructor; [apply rev_is_word; [reflexivity|exact S]|].
        apply IH. reflexivity.
    + apply IH. rewrite no_space_cons. now rewrite Ec, S.
Qed.

Lemma split_ws_words s : Forall (fun x => is_word x = true) (split_ws s).
Proof. apply split_ws_aux_words. reflexivity. Qed.

(** Splitting distributes over a white space character. *)
Lemma split_ws_aux_space s : forall cur c t,
  is_space c = true ->
  split_ws_aux cur (s ++ String c t)
  = (split_ws_aux cur s ++ split_ws_aux EmptyString t)%list.
Proof.
  induction s as [|x s IH]; intros cur c t Hc; cbn [append split_ws_aux].
  - rewrite Hc. destruct cur; reflexivity.
  - destruct (is_space x).
    + destruct cur; rewrite IH by exact Hc; reflexivity.
    + apply IH. exact Hc.
Qed.

Lemma split_ws_aux_started s : forall cur,
  nonempty cur = true -> 1 <= List.length (split_ws_aux cur s).
Proof.
  induction s as [|c s IH]; intros cur N; cbn [split_ws_aux].
  - destruct cur; [discriminate N|simpl; lia].
  - destruct (is_space c).
    + destruct cur; [discriminate N|simpl; lia].
    + apply IH. reflexivity.
Qed.

(** A word at the front is read into the accumulator. *)
Lemma split_ws_aux_word wd : forall cur rest,
  no_space wd = true ->
  split_ws_aux cur (wd ++ rest) = split_ws_aux (rev_onto cur wd) rest.
Proof.
  induction wd as [|c wd IH]; intros cur rest S;
    cbn [append split_ws_aux rev_onto]; [reflexivity|].
  rewrite no_space_cons in S. apply andb_prop in S. destruct S as [Sc S].
  apply negb_true_iff in Sc. rewrite Sc. apply IH. exact S.
Qed.

(** Words joined by single spaces split into the same words. *)
Lemma split_ws_join ws :
  Forall (fun x => is_word x = true) ws -> split_ws (join " " ws) = ws.
Proof.
  induction ws as [|wd ws IH]; intros F; [reflexivity|].
  inversion F as [|? ? W F']; subst.
  unfold is_word in W. apply andb_prop in W. destruct W as [N S].
  assert (R : nonempty (rev_onto EmptyString wd) = true).
  { destruct wd; [discriminate N|]. cbn [rev_onto].
    apply rev_onto_nonempty. reflexivity. }
  destruct ws as [|wd' ws].
  - cbn [join]. unfold split_ws.
    rewrite <- (append_nil_r wd) at 1.
    rewrite split_ws_aux_word by exact S. cbn [split_ws_aux].
    destruct (rev_onto EmptyString wd) eqn:E; [discriminate R|].
    rewrite <- E. fold (rev wd). fold (rev (rev wd)).
    rewrite rev_involutive. reflexivity.
  - change (join " " (wd :: wd' :: ws))
      with (wd ++ String " " (join " " (wd' :: ws))).
    unfold split_ws. rewrite split_ws_aux_word by exact S.
    cbn [split_ws_aux].
    change (is_space " ") with true. cbv iota.
    destruct (rev_onto EmptyString wd) eqn:E; [discriminate R|].
    rewrite <- E. fold (rev wd). fold (rev (rev wd)).
    rewrite rev_involutive.
    f_equal. apply IH. exact F'.
Qed.

Lemma Forall_firstn {A} (P : A -> Prop) n (l : list A) :
  Forall P l -> Forall P (firstn n l).
Proof.
  revert l. induction n as [|n IH]; intros [|x l] F; simpl; try constructor.
  - inversion F; assumption.
  - apply IH. inversion F; assumption.
Qed.

End Words.

Section SummaryBounds.

Import PyStr SummaryAgent.

(** A text below the minimum gets the filler sentence, which adds words. *)
Lemma bound_summary_short min_words max_words business_name text :
  List.length (split_ws text) < min_words ->
  bound_summary min_words max_words business_name text
  = text ++ filler business_name
  /\ List.length (split_ws text)
     < List.length (split_ws (text ++ filler business_name)).
Proof.
  intros H. split.
  - unfold bound_summary.
    destruct (Nat.ltb_spec (List.length (split_ws text)) min_words); [reflexivity|lia].
  - assert (E : exists r, filler business_name = String " " (String "M" r))
      by (eexists; reflexivity).
    destruct E as [r E]. rewrite E.
    unfold split_ws. rewrite split_ws_aux_space by reflexivity.
    rewrite length_app.
    pose proof (split_ws_aux_started r (String "M" EmptyString) eq_refl) as L.
    change (split_ws_aux EmptyString (String "M" r))
      with (split_ws_aux (String "M" EmptyString) r).
    lia.
Qed.

(** A text above the maximum is cut to exactly the maximum. *)
Lemma bound_summary_long min_words max_words business_name text :
  min_words <= List.length (split_ws text) ->
  max_words < List.length (split_ws text) ->
  bound_summary min_words max_words business_name text
  = join " " (firstn max_words (split_ws text))
  /\ List.length
       (split_ws (bound_summary min_words max_words business_name text))
     = max_words.
Proof.
  intros Hmin Hmax.
  assert (E : bound_summary min_words max_words business_name text
              = join " " (firstn max_words (split_ws text))).
  { unfold bound_summary.
    destruct (Nat.ltb_spec (List.length (split_ws text)) min_words); [lia|].
    destruct (Nat.ltb_spec max_words (List.length (split_ws text))); [reflexivity|lia]. }
  split; [exact E|]. rewrite E.
  rewrite split_ws_join by (apply Forall_firstn, split_ws_words).
  rewrite length_firstn. lia.
Qed.

(** C6.  When the rendered summary text has fewer words than the
    configured minimum, [_generate_summary] returns it with the filler
    sentence appended, and the result has strictly more words; when it has
    more words than the configured maximum, the result has exactly the
    configured maximum number of words. *)
Theorem summary_word_bounds
        (business_name : value) (directories_checked : nat)
        (missing_directories selected_directories : list string) :
  let text := render_summary business_name directories_checked
                             missing_directories selected_directories in
  let result := _generate_summary business_name directories_checked
                                  missing_directories selected_directories in
  (List.length (split_ws text) < fst SUMMARY_WORD_COUNT ->
   result = text ++ filler business_name
   /\ List.length (split_ws text) < List.length (split_ws result))
  /\ (snd SUMMARY_WORD_COUNT < List.length (split_ws text) ->
      List.length (split_ws result) = snd SUMMARY_WORD_COUNT).
Proof.
  intros text result. unfold result, _generate_summary.
  cbn [SUMMARY_WORD_COUNT fst snd]. fold text.
  split.
  - intros H.
    destruct (bound_summary_short 100 150 business_name text H) as [E L].
    rewrite E. split; [reflexivity|exact L].
  - intros H.
    apply (bound_summary_long 100 150 business_name text); lia.
Qed.

Lemma summary_word_bounds_witness :
  (_generate_summary (VStr "Joe's Cafe") 13 [] []
   = render_summary (VStr "Joe's Cafe") 13 [] [] ++ filler (VStr "Joe's Cafe")
   /\ List.length (split_ws (render_summary (VStr "Joe's Cafe") 13 [] []))
      < List.length (split_ws (_generate_summary (VStr "Joe's Cafe") 13 [] [])))
  /\ List.length
       (split_ws (_generate_summary long_name 13 ["yelp.com"; "bbb.org"]
                                    ["yelp.com"; "bbb.org"]))
     = snd SUMMARY_WORD_COUNT.
Proof.
  split.
  - apply (proj1 (summary_word_bounds (VStr "Joe's Cafe") 13 [] [])).
    vm_compute. lia.
  - apply (proj2 (summary_word_bounds long_name 13 ["yelp.com"; "bbb.org"]
                                      ["yelp.com"; "bbb.org"])).
    vm_compute. lia.
Defined.

End SummaryBounds.

(* ===================================================================== *)
(** * Theorems: the Orchestrator *)
(* ===================================================================== *)

Section Orchestrator.

(** The assignments after the validation of the name keep every value
    that is present, also [None] and the empty string ... *)
Lemma fill_fields_keeps_present (extraction_results : dict) (k : string) (v : value) :
  Dict.lookup extraction_results k = Some v ->
  Dict.lookup (fill_fields extraction_results) k = Some v.
Proof.
  intros H. unfold fill_fields.
  repeat match goal with
         | |- Dict.lookup (Dict.set _ ?k' _) k = _ =>
             rewrite lookup_set; destruct (String.eqb_spec k' k) as [<-|_]
         end;
    unfold dict_get_default;
    repeat (rewrite ?lookup_set_same, ?lookup_set_other by discriminate);
    rewrite ?H; try reflexivity.
Qed.

(** ... and use the placeholders for absent keys only. *)
Lemma fill_fields_absent (extraction_results : dict) :
  (Dict.lookup extraction_results "address" = None ->
   Dict.lookup (fill_fields extraction_results) "address"
   = Some (VStr "Address unavailable"))
  /\ (Dict.lookup extraction_results "phone" = None ->
      Dict.lookup (fill_fields extraction_results) "phone"
      = Some (VStr "Phone unavailable")).
Proof.
  unfold fill_fields, dict_get_default. split; intros H.
  - rewrite lookup_set_other by discriminate.
    rewrite lookup_set_same.
    rewrite lookup_set_other by discriminate. rewrite H. reflexivity.
  - rewrite lookup_set_same.
    rewrite !lookup_set_other by discriminate. rewrite H. reflexivity.
Qed.

(** C7 (amended).  When the extraction yields no business name,
    [run_workflow] awaits the extractor only and returns the failure
    tagged "extraction"; its error is the extraction's own error message
    (by default "Failed to extract required information") when the
    extraction neither succeeded nor partially succeeded, and "Failed to
    extract business name, which is required" otherwise. *)
Theorem run_workflow_halts_without_name (w : World) (maps_url : string) :
  makedirs w (get_output_directory w) = inr tt ->
  PyStr.nonempty maps_url = true ->
  PyStr.nonempty (PyStr.strip maps_url) = true ->
  truthy (dict_get (ExtractorAgent.run w maps_url) "name") = false ->
  let extraction_results := ExtractorAgent.run w maps_url in
  let error :=
    if negb (truthy (dict_get extraction_results "success"))
       && negb (truthy (dict_get extraction_results "partial_success"))
    then dict_get_default extraction_results "error"
                          (VStr "Failed to extract required information")
    else VStr "Failed to extract business name, which is required" in
  run_workflow w maps_url = ([Extractor], inr (Halted "extraction" error))
  /\ ~ In Researcher (fst (run_workflow w maps_url))
  /\ ~ In CitationBuilder (fst (run_workflow w maps_url))
  /\ ~ In SummaryGenerator (fst (run_workflow w maps_url)).
Proof.
  intros M U1 U2 N extraction_results error.
  assert (E : run_workflow w maps_url
              = ([Extractor], inr (Halted "extraction" error))).
  { unfold run_workflow, ensure_output_directory. rewrite M. cbn [bind ret].
    rewrite U1, U2. cbn [negb orb].
    unfold await, tbind. fold extraction_results. unfold error.
    destruct (negb (truthy (dict_get extraction_results "success"))
              && negb (truthy (dict_get extraction_results "partial_success"))).
    - reflexivity.
    - unfold extraction_results. rewrite N. reflexivity. }
  rewrite E. cbn [fst].
  split; [reflexivity|].
  repeat split; intros [X|[]]; discriminate X.
Qed.

Lemma run_workflow_halts_without_name_witness :
  run_workflow world_address_only maps_url_example
  = ([Extractor],
     inr (Halted "extraction"
                 (VStr "Failed to extract business name, which is required")))
  /\ ~ In Researcher (fst (run_workflow world_address_only maps_url_example))
  /\ ~ In CitationBuilder (fst (run_workflow world_address_only maps_url_example))
  /\ ~ In SummaryGenerator (fst (run_workflow world_address_only maps_url_example)).
Proof.
  apply (run_workflow_halts_without_name world_address_only maps_url_example);
    reflexivity.
Defined.

(** C7 as stated fails where nothing at all is extracted or the browser
    session fails: the run halts at "extraction", but with the generic
    message or with the message of the browser error, not with an error
    about the missing name. *)
Lemma run_workflow_extraction_error_not_about_name :
  dict_get (ExtractorAgent.run world_nothing_found maps_url_example) "name" = VNone
  /\ run_workflow world_nothing_found maps_url_example
     = ([Extractor],
        inr (Halted "extraction" (VStr "Failed to extract required information")))
  /\ dict_get (ExtractorAgent.run world_browser_crash maps_url_example) "name"
     = VNone
  /\ run_workflow world_browser_crash maps_url_example
     = ([Extractor], inr (Halted "extraction" (VStr "session not created"))).
Proof. repeat split. Qed.

(** C1, evaluated.  With the name "Joe's Cafe" and an empty address and
    phone extracted, the run proceeds through all four agents and
    completes, but neither placeholder is used: the business data of the
    later stages and of the report keep the empty strings, the Address and
    Phone lines of the report are empty, and the report contains neither
    "Address unavailable" nor "Phone unavailable".  When the two fields
    are not found at all they stay [None], and the report shows the text
    "None" for them. *)
Theorem run_workflow_keeps_empty_fields :
  ExtractorAgent.run world_name_only maps_url_example
  = [ ("success", VBool false); ("partial_success", VBool true);
      ("name", VStr "Joe's Cafe"); ("address", VStr ""); ("phone", VStr "");
      ("source_url", VStr maps_url_example) ]
  /\ fill_fields (ExtractorAgent.run world_name_only maps_url_example)
     = ExtractorAgent.run world_name_only maps_url_example
  /\ (exists r,
        run_workflow world_name_only maps_url_example
        = ([Extractor; Researcher; CitationBuilder; SummaryGenerator],
           inr (Completed r))
        /\ dict_get (business_info r) "address" = VStr ""
        /\ dict_get (business_info r) "phone" = VStr ""
        /\ nth 3 (PyStr.split nl (content r)) "" = "BUSINESS INFORMATION:"
        /\ nth 5 (PyStr.split nl (content r)) "" = "Address: "
        /\ nth 6 (PyStr.split nl (content r)) "" = "Phone: "
        /\ PyStr.contains "Address unavailable" (content r) = false
        /\ PyStr.contains "Phone unavailable" (content r) = false)
  /\ (exists r,
        run_workflow world_name_alone maps_url_example
        = ([Extractor; Researcher; CitationBuilder; SummaryGenerator],
           inr (Completed r))
        /\ dict_get (business_info r) "address" = VNone
        /\ dict_get (business_info r) "phone" = VNone
        /\ nth 5 (PyStr.split nl (content r)) "" = "Address: None"
        /\ nth 6 (PyStr.split nl (content r)) "" = "Phone: None"
        /\ PyStr.contains "Address unavailable" (content r) = false
        /\ PyStr.contains "Phone unavailable" (content r) = false).
Proof.
  split; [reflexivity|]. split; [reflexivity|].
  split.
  - eexists. split; [vm_compute; reflexivity|].
    repeat split; vm_compute; reflexivity.
  - eexists. split; [vm_compute; reflexivity|].
    repeat split; vm_compute; reflexivity.
Qed.

End Orchestrator.

(* ===================================================================== *)
(** * Lemmas on stripping *)
(* ===================================================================== *)

Section StripFacts.

Import PyStr.

Lemma rev_onto_append s : forall acc, rev_onto acc s = rev s ++ acc.
Proof.
  unfold rev. induction s as [|c s IH]; intros acc; cbn [rev_onto].
  - reflexivity.
  - rewrite (IH (String c acc)), (IH (String c EmptyString)).
    rewrite append_assoc. reflexivity.
Qed.

Lemma rev_cons c s : rev (String c s) = rev s ++ String c EmptyString.
Proof. unfold rev at 1. cbn [rev_onto]. apply rev_onto_append. Qed.

Lemma rev_onto_snoc s c : forall acc,
  rev_onto acc (s ++ String c EmptyString) = String c (rev_onto acc s).
Proof.
  induction s as [|x s IH]; intros acc; cbn [append rev_onto].
  - reflexivity.
  - apply IH.
Qed.

Lemma rev_snoc s c : rev (s ++ String c EmptyString) = String c (rev s).
Proof. apply rev_onto_snoc. Qed.

Lemma nonempty_append_r a b : nonempty b = true -> nonempty (a ++ b) = true.
Proof. destruct a; simpl; auto. Qed.

Lemma nonempty_rev s : nonempty (rev s) = nonempty s.
Proof.
  destruct s as [|c s]; [reflexivity|].
  rewrite rev_cons. apply nonempty_append_r. reflexivity.
Qed.

(** [lstrip] of a string extended by one character. *)
Lemma lstrip_snoc t c :
  lstrip (t ++ String c EmptyString)
  = if nonempty (lstrip t) then lstrip t ++ String c EmptyString
    else if is_space c then EmptyString else String c EmptyString.
Proof.
  induction t as [|x t IH]; cbn [append lstrip nonempty].
  - destruct (is_space c); reflexivity.
  - destruct (is_space x); [exact IH|reflexivity].
Qed.

(** [rstrip], read from the left. *)
Lemma rstrip_cons c s :
  rstrip (String c s)
  = if is_space c && negb (nonempty (rstrip s)) then EmptyString
    else String c (rstrip s).
Proof.
  unfold rstrip. rewrite rev_cons, lstrip_snoc.
  rewrite (nonempty_rev (lstrip (rev s))).
  destruct (lstrip (rev s)) as [|x u].
  - cbn [nonempty negb]. rewrite andb_true_r.
    destruct (is_space c); reflexivity.
  - cbn [nonempty negb]. rewrite rev_snoc, andb_false_r. reflexivity.
Qed.

Lemma rstrip_nil : rstrip EmptyString = EmptyString.
Proof. reflexivity. Qed.

Lemma rstrip_cons_word c s :
  is_space c = false -> rstrip (String c s) = String c (rstrip s).
Proof. intros H. rewrite rstrip_cons, H. reflexivity. Qed.

Lemma rstrip_no_space wd Y :
  no_space wd = true -> rstrip (wd ++ Y) = wd ++ rstrip Y.
Proof.
  induction wd as [|c wd IH]; intros H; cbn [append]; [reflexivity|].
  rewrite no_space_cons in H. apply andb_prop in H. destruct H as [Hc H].
  apply negb_true_iff in Hc.
  rewrite rstrip_cons_word by exact Hc. rewrite IH by exact H. reflexivity.
Qed.

Lemma rstrip_keeps a Y :
  nonempty (rstrip Y) = true -> rstrip (a ++ Y) = a ++ rstrip Y.
Proof.
  intros H. induction a as [|c a IH]; cbn [append]; [reflexivity|].
  rewrite rstrip_cons, IH.
  rewrite (nonempty_append_r a _ H), andb_false_r. reflexivity.
Qed.

Lemma rstrip_all_space s : forallb is_space s = true -> rstrip s = EmptyString.
Proof.
  induction s as [|c s IH]; intros H; [reflexivity|].
  cbn [forallb] in H. apply andb_prop in H. destruct H as [Hc H].
  rewrite rstrip_cons, (IH H), Hc. reflexivity.
Qed.

Lemma lstrip_all_space s : forallb is_space s = true -> lstrip s = EmptyString.
Proof.
  induction s as [|c s IH]; intros H; [reflexivity|].
  cbn [forallb] in H. apply andb_prop in H. destruct H as [Hc H].
  cbn [lstrip]. rewrite Hc. exact (IH H).
Qed.

(** A string strips to the empty string exactly when it is blank. *)
Lemma strip_empty_iff s :
  nonempty (strip s) = false <-> forallb is_space s = true.
Proof.
  unfold strip. induction s as [|c s IH]; cbn [lstrip forallb].
  - split; reflexivity.
  - destruct (is_space c) eqn:Ec; cbn [andb].
    + exact IH.
    + rewrite rstrip_cons_word by exact Ec. split; discriminate.
Qed.

End StripFacts.

(* ===================================================================== *)
(** * Theorems: clean_string and truncate_text (utils/text_utils.py) *)
(* ===================================================================== *)

Section CleanString.

Import PyStr.

Lemma lstrip_collapse s : forall b,
  lstrip (collapse_spaces_aux b s) = collapse_spaces_aux false (lstrip s).
Proof.
  induction s as [|c s IH]; intros b; cbn [collapse_spaces_aux lstrip].
  - reflexivity.
  - destruct (is_space c) eqn:Ec.
    + destruct b; [apply IH|].
      cbn [lstrip]. change (is_space " ") with true. cbv iota. apply IH.
    + cbn [lstrip collapse_spaces_aux]. rewrite Ec. reflexivity.
Qed.

Lemma split_ws_lstrip s : split_ws (lstrip s) = split_ws s.
Proof.
  unfold split_ws. induction s as [|c s IH]; cbn [lstrip split_ws_aux].
  - reflexivity.
  - destruct (is_space c) eqn:Ec; [exact IH|].
    cbn [split_ws_aux]. rewrite Ec. reflexivity.
Qed.

Lemma lstrip_head s :
  lstrip s = EmptyString
  \/ exists c t, lstrip s = String c t /\ is_space c = false.
Proof.
  induction s as [|c s IH]; cbn [lstrip]; [left; reflexivity|].
  destruct (is_space c) eqn:Ec; [exact IH|].
  right. exists c, s. split; [reflexivity|exact Ec].
Qed.

Lemma rstrip_idempotent s : rstrip (rstrip s) = rstrip s.
Proof.
  induction s as [|c s IH]; [reflexivity|].
  rewrite rstrip_cons.
  destruct (is_space c && negb (nonempty (rstrip s))) eqn:E; [reflexivity|].
  rewrite rstrip_cons, IH, E. reflexivity.
Qed.

Lemma strip_idempotent s : strip (strip s) = strip s.
Proof.
  unfold strip.
  destruct (lstrip_head s) as [E|(c & t & E & Ec)]; rewrite E.
  - reflexivity.
  - rewrite rstrip_cons_word by exact Ec. cbn [lstrip]. rewrite Ec.
    rewrite <- (rstrip_cons_word c t Ec). apply rstrip_idempotent.
Qed.

Lemma join_cons wd ws :
  ws <> [] -> join " " (wd :: ws) = wd ++ String " " (join " " ws).
Proof. destruct ws; [contradiction|reflexivity]. Qed.

Lemma append_snoc a c Y :
  a ++ String c Y = (a ++ String c EmptyString) ++ Y.
Proof. rewrite append_assoc. reflexivity. Qed.

(** The collapsed text, stripped on the right, is its words joined by
    single spaces: [cur] is a word being read, [wd] a word followed by a
    run of white space. *)
Lemma rstrip_collapse s :
  (forall cur,
      nonempty cur = true -> no_space cur = true ->
      rstrip (rev cur ++ collapse_spaces_aux false s)
      = join " " (split_ws_aux cur s))
  /\ (forall wd,
        nonempty wd = true -> no_space wd = true ->
        rstrip (wd ++ String " " (collapse_spaces_aux true s))
        = join " " (wd :: split_ws s)).
Proof.
  induction s as [|c s [IHH IHK]]; split.
  - intros cur N S. cbn [collapse_spaces_aux split_ws_aux].
    destruct cur as [|x cur]; [discriminate N|].
    pose proof (rev_is_word (String x cur) N S) as W.
    unfold is_word in W. apply andb_prop in W. destruct W as [_ W].
    rewrite rstrip_no_space by exact W. rewrite rstrip_nil. cbn [join].
    apply append_nil_r.
  - intros wd N S. cbn [collapse_spaces_aux]. unfold split_ws.
    cbn [split_ws_aux join].
    rewrite rstrip_no_space by exact S.
    rewrite rstrip_all_space by reflexivity. apply append_nil_r.
  - intros cur N S. cbn [collapse_spaces_aux split_ws_aux].
    destruct (is_space c) eqn:Ec.
    + pose proof (rev_is_word cur N S) as W.
      unfold is_word in W. apply andb_prop in W. destruct W as [WN WS].
      rewrite (IHK (rev cur) WN WS).
      destruct cur; [discriminate N|]. reflexivity.
    + rewrite append_snoc, <- rev_cons.
      apply IHH; [reflexivity|]. rewrite no_space_cons, Ec, S. reflexivity.
  - intros wd N S. cbn [collapse_spaces_aux]. unfold split_ws.
    cbn [split_ws_aux].
    destruct (is_space c) eqn:Ec.
    + apply IHK; assumption.
    + assert (S1 : no_space (String c EmptyString) = true)
        by (rewrite no_space_cons, Ec; reflexivity).
      pose proof (IHH (String c EmptyString) eq_refl S1) as Y.
      change (rev (String c EmptyString) ++ collapse_spaces_aux false s)
        with (String c (collapse_spaces_aux false s)) in Y.
      assert (L : 1 <= List.length (split_ws_aux (String c EmptyString) s))
        by (apply split_ws_aux_started; reflexivity).
      rewrite join_cons by (intros E; rewrite E in L; simpl in L; lia).
      rewrite <- Y.
      rewrite (append_snoc wd " "), (append_snoc wd " " (rstrip _)).
      apply rstrip_keeps.
      rewrite rstrip_cons_word by exact Ec. reflexivity.
Qed.

Lemma clean_string_eq (text : string) :
  clean_string text = join " " (split_ws text).
Proof.
  unfold clean_string. destruct text as [|c0 text0]; [reflexivity|].
  cbn [nonempty negb]. set (text := String c0 text0).
  unfold strip, collapse_spaces. rewrite lstrip_collapse.
  rewrite <- (split_ws_lstrip text).
  destruct (lstrip_head text) as [E|(c & t & E & Ec)]; rewrite E.
  - reflexivity.
  - assert (S1 : no_space (String c EmptyString) = true)
      by (rewrite no_space_cons, Ec; reflexivity).
    pose proof (proj1 (rstrip_collapse t) (String c EmptyString) eq_refl S1) as Y.
    change (rev (String c EmptyString) ++ collapse_spaces_aux false t)
      with (String c (collapse_spaces_aux false t)) in Y.
    cbn [collapse_spaces_aux]. rewrite Ec. rewrite Y.
    unfold split_ws. cbn [split_ws_aux]. rewrite Ec. reflexivity.
Qed.

(** X1.  [clean_string(text)] is [' '.join(text.split())]: the words of
    the text, joined by single spaces. *)
Theorem clean_string_joins_words (text : string) :
  clean_string text = join " " (split_ws text).
Proof. apply clean_string_eq. Qed.

(** X2.  [clean_string] keeps the words of the text and is idempotent;
    its result neither starts nor ends with white space. *)
Theorem clean_string_normalises (text : string) :
  split_ws (clean_string text) = split_ws text
  /\ clean_string (clean_string text) = clean_string text
  /\ strip (clean_string text) = clean_string text.
Proof.
  assert (W : split_ws (clean_string text) = split_ws text).
  { rewrite clean_string_eq. apply split_ws_join, split_ws_words. }
  assert (I : clean_string (clean_string text) = clean_string text).
  { rewrite (clean_string_eq (clean_string text)), W.
    symmetry. apply clean_string_eq. }
  split; [exact W|]. split; [exact I|].
  unfold clean_string. destruct text as [|c0 text0]; [reflexivity|].
  cbn [nonempty negb]. apply strip_idempotent.
Qed.

End CleanString.

Section TruncateText.

Import PyStr.

Lemma string_length_append (a b : string) :
  String.length (a ++ b) = String.length a + String.length b.
Proof. induction a as [|c a IH]; simpl; congruence. Qed.

(** [s[:n]] is the first [min n (len s)] characters of [s]. *)
Lemma slice_0_prefix n : forall s,
  exists rest,
    s = slice 0 n s ++ rest
    /\ String.length (slice 0 n s) = Nat.min n (String.length s).
Proof.
  unfold slice. rewrite Nat.sub_0_r.
  induction n as [|n IH]; intros s.
  - exists s. destruct s; split; reflexivity.
  - destruct s as [|c s].
    + exists EmptyString. split; reflexivity.
    + destruct (IH s) as (rest & E & L).
      exists rest. cbn [substring append String.length Nat.min].
      split; [congruence|]. rewrite L. reflexivity.
Qed.

(** [s.rsplit(' ', 1)[0]] is all of [s] when [s] has no space, and
    otherwise what stands before the last space. *)
Lemma rsplit_space_head_spec s :
  (mem_char " " s = false /\ rsplit_space_head s = s)
  \/ (exists r, s = rsplit_space_head s ++ String " " r
             /\ mem_char " " r = false).
Proof.
  induction s as [|c s IH]; [left; split; reflexivity|].
  cbn [rsplit_space_head mem_char].
  destruct (mem_char " " s) eqn:M.
  - right. destruct IH as [[M' _]|(r & E & R)]; [discriminate M'|].
    exists r. split; [|exact R]. cbn [append]. congruence.
  - destruct (Ascii.eqb_spec c " ") as [->|N].
    + right. exists s. split; [reflexivity|exact M].
    + left. split; reflexivity.
Qed.

(** X3.  [truncate_text] returns a text of at most [max_length]
    characters unchanged.  A longer text becomes [body ++ "..."], where
    [body] has at most [max_length] characters and either ends just
    before a space of the text, or is the first [max_length] characters
    when these hold no space; so the result has at most [max_length + 3]
    characters. *)
Theorem truncate_text_spec (text : string) (max_length : nat) :
  (String.length text <= max_length -> truncate_text text max_length = text)
  /\ (max_length < String.length text ->
      exists body,
        truncate_text text max_length = body ++ "..."
        /\ String.length body <= max_length
        /\ String.length (truncate_text text max_length) <= max_length + 3
        /\ ((exists rest, text = body ++ String " " rest)
            \/ (mem_char " " body = false
                /\ body = slice 0 max_length text
                /\ exists rest, text = body ++ rest))).
Proof.
  unfold truncate_text. split.
  - intros H. destruct (Nat.leb_spec (String.length text) max_length); [|lia].
    rewrite orb_true_r. reflexivity.
  - intros H.
    assert (NE : nonempty text = true)
      by (destruct text; [simpl in H; lia|reflexivity]).
    rewrite NE. cbn [negb orb].
    destruct (Nat.leb_spec (String.length text) max_length) as [L|_]; [lia|].
    cbv beta iota zeta.
    exists (rsplit_space_head (slice 0 max_length text)).
    destruct (slice_0_prefix max_length text) as (rest & E & L).
    rewrite Nat.min_l in L by lia.
    split; [reflexivity|].
    destruct (rsplit_space_head_spec (slice 0 max_length text))
      as [[M B]|(r & B & M)].
    + rewrite B. split; [lia|]. split.
      * rewrite string_length_append, L. simpl. lia.
      * right. split; [exact M|]. split; [reflexivity|].
        exists rest. exact E.
    + assert (Lb : String.length (rsplit_space_head (slice 0 max_length text))
                   <= max_length).
      { rewrite B in L at 1. rewrite string_length_append in L. lia. }
      split; [exact Lb|]. split.
      * rewrite string_length_append. simpl. lia.
      * left. exists (r ++ rest).
        rewrite E at 1. rewrite B at 1.
        rewrite append_assoc. reflexivity.
Qed.

Lemma truncate_text_spec_witness :
  truncate_text "hello" 5 = "hello"
  /\ exists body,
      truncate_text "hello world foo" 8 = body ++ "..."
      /\ String.length body <= 8
      /\ String.length (truncate_text "hello world foo" 8) <= 8 + 3
      /\ ((exists rest, "hello world foo" = body ++ String " " rest)
          \/ (mem_char " " body = false
              /\ body = slice 0 8 "hello world foo"
              /\ exists rest, "hello world foo" = body ++ rest)).
Proof.
  split.
  - apply (proj1 (truncate_text_spec "hello" 5)). simpl. lia.
  - apply (proj2 (truncate_text_spec "hello world foo" 8)). simpl. lia.
Defined.

End TruncateText.

(* ===================================================================== *)
(** * Theorems: more on format_phone_number *)
(* ===================================================================== *)

Section PhoneDigits.

Import PyStr.

Ltac digits_step :=
  first [ rewrite digits_only_cons_digit by assumption
        | rewrite digits_only_cons_other by reflexivity ].

Ltac split_digits H :=
  simpl in H; repeat (apply andb_prop in H; destruct H as [? H]).

(** X4.  Of a standard number only the digits matter: two inputs with the
    same ten digits, or the same eleven digits starting with 1, are
    formatted to the same string, whatever punctuation they carry. *)
Theorem format_phone_number_ignores_punctuation (s s' : string) :
  digits_only s = digits_only s' ->
  String.length (digits_only s) = 10
  \/ (String.length (digits_only s) = 11
      /\ get 0 (digits_only s) = Some "1"%char) ->
  format_phone_number s = format_phone_number s'.
Proof.
  intros E [H|[H H1]].
  - destruct (format_phone_number_10 s H)
      as (a & b & c & d & e & f & g & h & i & j & D & _ & F).
    rewrite E in H.
    destruct (format_phone_number_10 s' H)
      as (a' & b' & c' & d' & e' & f' & g' & h' & i' & j' & D' & _ & F').
    rewrite F, F'. rewrite E, D' in D. injection D as -> -> -> -> -> -> -> -> -> ->.
    reflexivity.
  - destruct (format_phone_number_11 s H H1)
      as (a & b & c & d & e & f & g & h & i & j & D & F).
    rewrite E in H, H1.
    destruct (format_phone_number_11 s' H H1)
      as (a' & b' & c' & d' & e' & f' & g' & h' & i' & j' & D' & F').
    rewrite F, F'. rewrite E, D' in D. injection D as -> -> -> -> -> -> -> -> -> ->.
    reflexivity.
Qed.

Lemma format_phone_number_ignores_punctuation_witness :
  format_phone_number "555.123.4567" = format_phone_number "(555) 123 4567 "
  /\ format_phone_number "+1 555 123 4567" = format_phone_number "1-555-123-4567".
Proof.
  split.
  - apply format_phone_number_ignores_punctuation;
      [reflexivity|left; reflexivity].
  - apply format_phone_number_ignores_punctuation;
      [reflexivity|right; split; reflexivity].
Defined.

(** X5.  [format_phone_number] either returns its input unchanged or
    returns a string of fourteen characters that holds exactly ten
    digits: the digits of the input, without the leading 1 when the input
    has eleven. *)
Theorem format_phone_number_keeps_digits (s : string) :
  format_phone_number s = s
  \/ (String.length (format_phone_number s) = 14
      /\ String.length (digits_only (format_phone_number s)) = 10
      /\ (digits_only s = digits_only (format_phone_number s)
          \/ digits_only s = String "1" (digits_only (format_phone_number s)))).
Proof.
  destruct (Nat.eq_dec (String.length (digits_only s)) 10) as [H10|H10].
  - right.
    destruct (format_phone_number_10 s H10)
      as (a & b & c & d & e & f & g & h & i & j & E & D & F).
    rewrite F. rewrite E in D. split_digits D.
    rewrite digits_only_grouped by assumption.
    split; [reflexivity|]. split; [reflexivity|]. left. exact E.
  - destruct (Nat.eq_dec (String.length (digits_only s)) 11) as [H11|H11].
    + destruct (get 0 (digits_only s)) as [k|] eqn:G.
      * destruct (Ascii.eqb_spec k "1") as [->|K].
        -- right.
           destruct (format_phone_number_11 s H11 G)
             as (a & b & c & d & e & f & g & h & i & j & E & F).
           rewrite F.
           pose proof (digits_only_all_digits s) as D.
           rewrite E in D. split_digits D.
           rewrite digits_only_grouped by assumption.
           split; [reflexivity|]. split; [reflexivity|]. right. exact E.
        -- left. apply format_phone_number_other; [exact H10|].
           intros [_ X]. congruence.
      * left. apply format_phone_number_other; [exact H10|].
        intros [_ X]. congruence.
    + left. apply format_phone_number_other; [exact H10|].
      intros [X _]. congruence.
Qed.

End PhoneDigits.


(* ===================================================================== *)
(** * Theorems: more on the Citation Builder *)
(* ===================================================================== *)

Section CitationContents.

Import CitationBuilderAgent.

Lemma py_str_opaque (v : value) : exists s, py_str v = s.
Proof. eexists. reflexivity. Qed.

Ltac find_field :=
  repeat first [ apply contains_here | apply contains_skip ].

Ltac open_templates :=
  unfold format_citation;
  repeat match goal with
         | |- context [if ?b then _ else _] => destruct b
         end;
  cbv beta delta [_format_yelp_citation _format_yellowpages_citation
    _format_bbb_citation _format_foursquare_citation _format_manta_citation
    _format_superpages_citation _format_chamber_citation
    _format_generic_citation].

Lemma format_citation_contains_fields (name address phone : value)
        (directory : string) :
  PyStr.contains (py_str name) (format_citation name address phone directory)
  = true
  /\ PyStr.contains (py_str address)
                    (format_citation name address phone directory) = true
  /\ PyStr.contains (py_str phone)
                    (format_citation name address phone directory) = true.
Proof.
  generalize (py_str_opaque name), (py_str_opaque address), (py_str_opaque phone).
  intros (sn & En) (sa & Ea) (sp & Ep).
  split; [|split]; open_templates; rewrite ?En, ?Ea, ?Ep; find_field.
Qed.

(** X6.  Whichever template a directory selects, the citation contains
    the name, the address and the phone as they are rendered. *)
Theorem format_citation_carries_nap (name address phone : value)
        (directory : string) :
  PyStr.contains (py_str name) (format_citation name address phone directory)
  = true
  /\ PyStr.contains (py_str address)
                    (format_citation name address phone directory) = true
  /\ PyStr.contains (py_str phone)
                    (format_citation name address phone directory) = true.
Proof. apply format_citation_contains_fields. Qed.

Lemma keys_set {V} (d : Dict.t V) k v :
  Dict.keys (Dict.set d k v)
  = if in_dec string_dec k (Dict.keys d) then Dict.keys d
    else (Dict.keys d ++ [k])%list.
Proof.
  induction d as [|[k0 v0] d IH]; cbn [Dict.set Dict.keys List.map fst].
  - reflexivity.
  - destruct (String.eqb_spec k0 k) as [->|N].
    + cbn [List.map fst]. destruct (in_dec string_dec k (k :: _)) as [_|NI];
        [reflexivity|exfalso; apply NI; left; reflexivity].
    + cbn [List.map fst]. fold (Dict.keys d). fold (Dict.keys (Dict.set d k v)).
      rewrite IH.
      destruct (in_dec string_dec k (Dict.keys d)) as [I|NI];
        destruct (in_dec string_dec k (k0 :: Dict.keys d)) as [I'|NI'];
        try reflexivity.
      * exfalso. apply NI'. right. exact I.
      * exfalso. destruct I' as [E|I']; [congruence|contradiction].
Qed.

(** The keys of a dictionary filled by [for k in ks: d[k] = f(k)]. *)
Lemma keys_filled {V} (f : string -> V) ks :
  forall d : Dict.t V,
    NoDup (Dict.keys d) ->
    NoDup (Dict.keys (fold_left (fun acc x => Dict.set acc x (f x)) ks d))
    /\ (forall k, In k (Dict.keys (fold_left (fun acc x => Dict.set acc x (f x)) ks d))
                 <-> In k (Dict.keys d) \/ In k ks)
    /\ (NoDup ks -> (forall k, In k ks -> ~ In k (Dict.keys d)) ->
        Dict.keys (fold_left (fun acc x => Dict.set acc x (f x)) ks d)
        = (Dict.keys d ++ ks)%list).
Proof.
  induction ks as [|x ks IH]; intros d ND; cbn [fold_left].
  - split; [exact ND|]. split; [intros k; simpl; tauto|].
    intros _ _. rewrite app_nil_r. reflexivity.
  - assert (ND' : NoDup (Dict.keys (Dict.set d x (f x)))).
    { rewrite keys_set. destruct (in_dec string_dec x (Dict.keys d)) as [I|NI];
        [exact ND|].
      apply NoDup_app; [exact ND|repeat constructor; simpl; tauto|].
      intros a Ia [<-|[]]. contradiction. }
    destruct (IH _ ND') as (N1 & M1 & E1).
    split; [exact N1|]. split.
    + intros k. rewrite M1, keys_set.
      destruct (in_dec string_dec x (Dict.keys d)) as [I|NI].
      * simpl. split; [tauto|]. intros [H|[<-|H]]; tauto.
      * rewrite in_app_iff. simpl. tauto.
    + intros NDks Disj. inversion NDks as [|? ? NIx NDks']; subst.
      rewrite E1.
      * rewrite keys_set.
        destruct (in_dec string_dec x (Dict.keys d)) as [I|NI].
        -- exfalso. apply (Disj x); [left; reflexivity|exact I].
        -- rewrite <- app_assoc. reflexivity.
      * exact NDks'.
      * intros k Ik. rewrite keys_set.
        destruct (in_dec string_dec x (Dict.keys d)) as [I|NI].
        -- apply Disj. right. exact Ik.
        -- rewrite in_app_iff. intros [H|[<-|[]]].
           ++ apply (Disj k); [right; exact Ik|exact H].
           ++ contradiction.
Qed.

(** The result of [run] for a name that is a non-empty string and a phone
    that is absent, [None] or a string. *)
Lemma citation_builder_run_eq
      (business_data : dict) (selected_directories : list string) (n : string) :
  Dict.lookup business_data "name" = Some (VStr n) ->
  n <> "" ->
  (forall v, Dict.lookup business_data "phone" = Some v -> none_or_str v = true) ->
  run business_data selected_directories
  = Success
      {| citations :=
           fold_left
             (fun acc d =>
                Dict.set acc d
                  (format_citation (VStr n) (citation_address business_data)
                                   (VStr (citation_phone business_data)) d))
             selected_directories Dict.empty |}.
Proof.
  intros Hname Hn Hphone.
  unfold run, run_try, dict_get, dict_item. rewrite Hname.
  assert (T : truthy (VStr n) = true) by (destruct n; [contradiction|reflexivity]).
  rewrite T. cbn [negb].
  destruct selected_directories as [|d0 ds]; [reflexivity|].
  cbn [bind ret].
  assert (P : (if negb (value_eqb (dict_get_default business_data "phone"
                                     (VStr "Phone pending verification"))
                                  (VStr "Phone pending verification"))
               then p <- format_phone_number_dyn
                           (dict_get_default business_data "phone"
                              (VStr "Phone pending verification")) ;;
                    ret (VStr p)
               else ret (dict_get_default business_data "phone"
                           (VStr "Phone pending verification")))
              = inr (VStr (citation_phone business_data))).
  { unfold dict_get_default, citation_phone.
    destruct (Dict.lookup business_data "phone") as [v|] eqn:L; [|reflexivity].
    specialize (Hphone v eq_refl).
    destruct v as [|b|p]; [reflexivity|discriminate Hphone|].
    destruct (value_eqb (VStr p) (VStr "Phone pending verification")) eqn:E.
    - cbn [value_eqb] in E. apply String.eqb_eq in E. subst p. reflexivity.
    - cbn [negb]. unfold format_phone_number_dyn.
      destruct p; reflexivity. }
  rewrite P. reflexivity.
Qed.

(** X7.  The phone of the business data reaches the citations formatted:
    for a name that is a non-empty string and a phone that is a string,
    [run] succeeds, and the citation of every selected directory contains
    [format_phone_number] of that phone. *)
Theorem citation_builder_formats_phone
        (business_data : dict) (selected_directories : list string)
        (n p : string) :
  Dict.lookup business_data "name" = Some (VStr n) ->
  n <> "" ->
  Dict.lookup business_data "phone" = Some (VStr p) ->
  exists cits,
    run business_data selected_directories = Success {| citations := cits |}
    /\ forall d, In d selected_directories ->
         exists c, Dict.lookup cits d = Some c
           /\ c = format_citation (VStr n) (citation_address business_data)
                                  (VStr (format_phone_number p)) d
           /\ PyStr.contains (format_phone_number p) c = true.
Proof.
  intros Hname Hn Hphone.
  eexists. split.
  - apply (citation_builder_run_eq business_data selected_directories n Hname Hn).
    intros v H. rewrite Hphone in H. injection H as <-. reflexivity.
  - intros d I. eexists. split.
    + rewrite lookup_filled.
      destruct (in_dec string_dec d selected_directories); [reflexivity|contradiction].
    + unfold citation_phone. rewrite Hphone. split; [reflexivity|].
      apply (format_citation_contains_fields (VStr n) _ (VStr (format_phone_number p)) d).
Qed.

Lemma citation_builder_formats_phone_witness :
  exists cits,
    run joes_cafe ["yelp"; "tupalo.com"] = Success {| citations := cits |}
    /\ forall d, In d ["yelp"; "tupalo.com"] ->
         exists c, Dict.lookup cits d = Some c
           /\ c = format_citation (VStr "Joe's Cafe") (citation_address joes_cafe)
                                  (VStr (format_phone_number "5551234567")) d
           /\ PyStr.contains (format_phone_number "5551234567") c = true.
Proof.
  apply (citation_builder_formats_phone joes_cafe ["yelp"; "tupalo.com"]
                                        "Joe's Cafe" "5551234567").
  - reflexivity.
  - discriminate.
  - reflexivity.
Defined.

Lemma citation_keys
        (business_data : dict) (selected_directories : list string)
        (c : Citations) :
  run business_data selected_directories = Success c ->
  NoDup (Dict.keys (citations c))
  /\ (forall d, In d (Dict.keys (citations c)) <-> In d selected_directories)
  /\ (NoDup selected_directories ->
      Dict.keys (citations c) = selected_directories)
  /\ Dict.len (citations c) <= List.length selected_directories.
Proof.
  intros H.
  assert (H' : run_try business_data selected_directories = inr c).
  { unfold run in H.
    destruct (run_try business_data selected_directories) as [e|c'];
      [discriminate H|].
    cbn in H. congruence. }
  clear H. rename H' into H. unfold run_try in H.
  destruct (negb (truthy (dict_get business_data "name"))); [discriminate H|].
  destruct selected_directories as [|d0 ds].
  { injection H as <-. cbn. repeat split; try tauto; constructor. }
  cbn [bind ret] in H.
  destruct (dict_item business_data "name") as [e|name]; [discriminate H|].
  cbn [bind] in H.
  match type of H with
  | bind ?m _ = _ => destruct m as [e|phone]; [discriminate H|]
  end.
  cbn [bind ret] in H. injection H as <-.
  cbn [citations].
  set (f := fun d =>
              format_citation name
                (dict_get_default business_data "address"
                                  (VStr "Address pending verification"))
                phone d).
  destruct (keys_filled f (d0 :: ds) Dict.empty) as (N & M & E);
    [constructor|].
  assert (Hlen : forall ks (d : Dict.t string),
             Dict.len (fold_left (fun acc x => Dict.set acc x (f x)) ks d)
             <= Dict.len d + List.length ks).
  { induction ks as [|x ks IH]; intros d; cbn [fold_left List.length]; [lia|].
    specialize (IH (Dict.set d x (f x))).
    assert (Dict.len (Dict.set d x (f x)) <= S (Dict.len d)).
    { unfold Dict.len. clear. induction d as [|[k0 v0] d IH]; simpl; [lia|].
      destruct (String.eqb k0 x); simpl; lia. }
    lia. }
  split; [exact N|]. split; [|split].
  - intros d. rewrite M. simpl. tauto.
  - intros ND. apply E; [exact ND|]. intros k _ [].
  - apply (Hlen (d0 :: ds) Dict.empty).
Qed.

(** X8.  The citations of a successful [run] have one entry for each
    different selected directory: no key occurs twice, the keys are the
    selected directories, in their order when the selection has no
    repetition, and there are never more citations than selected
    directories. *)
Theorem citation_builder_one_per_directory
        (business_data : dict) (selected_directories : list string)
        (c : Citations) :
  run business_data selected_directories = Success c ->
  NoDup (Dict.keys (citations c))
  /\ (forall d, In d (Dict.keys (citations c)) <-> In d selected_directories)
  /\ (NoDup selected_directories ->
      Dict.keys (citations c) = selected_directories)
  /\ Dict.len (citations c) <= List.length selected_directories.
Proof. apply citation_keys. Qed.

Lemma citation_builder_one_per_directory_witness :
  exists c,
    run joes_cafe ["yelp"; "bbb"; "yelp"] = Success c
    /\ Dict.keys (citations c) = ["yelp"; "bbb"]
    /\ NoDup (Dict.keys (citations c))
    /\ (forall d, In d (Dict.keys (citations c)) <-> In d ["yelp"; "bbb"; "yelp"])
    /\ (NoDup ["yelp"; "bbb"; "yelp"] ->
        Dict.keys (citations c) = ["yelp"; "bbb"; "yelp"])
    /\ Dict.len (citations c) <= List.length ["yelp"; "bbb"; "yelp"].
Proof.
  eexists. split; [vm_compute; reflexivity|].
  split; [reflexivity|].
  apply (citation_builder_one_per_directory joes_cafe ["yelp"; "bbb"; "yelp"]).
  vm_compute. reflexivity.
Defined.

End CitationContents.

(* ===================================================================== *)
(** * Theorems: file names and the extraction result *)
(* ===================================================================== *)

Section FileNames.

Import PyStr.

Lemma forallb_map (P : ascii -> bool) (f : ascii -> ascii) s :
  (forall c, P (f c) = true) -> forallb P (PyStr.map f s) = true.
Proof.
  intros H. induction s as [|c s IH]; cbn [PyStr.map forallb]; [reflexivity|].
  rewrite H, IH. reflexivity.
Qed.

Lemma forallb_slice_0 (P : ascii -> bool) n : forall s,
  forallb P s = true -> forallb P (slice 0 n s) = true.
Proof.
  unfold slice. rewrite Nat.sub_0_r.
  induction n as [|n IH]; intros [|c s] H; cbn [substring forallb];
    try reflexivity.
  cbn [forallb] in H. apply andb_prop in H. destruct H as [Hc H].
  rewrite Hc, (IH s H). reflexivity.
Qed.

Lemma length_map f s : String.length (PyStr.map f s) = String.length s.
Proof. induction s; simpl; congruence. Qed.

Lemma forallb_not_mem (P : ascii -> bool) x s :
  P x = false -> forallb P s = true -> mem_char x s = false.
Proof.
  intros Px. induction s as [|c s IH]; intros H; cbn [mem_char]; [reflexivity|].
  cbn [forallb] in H. apply andb_prop in H. destruct H as [Hc H].
  rewrite (IH H), orb_false_r.
  destruct (Ascii.eqb_spec c x) as [->|N]; [congruence|reflexivity].
Qed.

(** X10.  For a business name that is a string, the generated file name
    is [clean ++ "_" ++ timestamp ++ ".txt"], where [clean] has the
    length of the name, but at most 30, and consists of alphanumeric
    characters and underscores only; in particular it holds no path
    separator and no dot. *)
Theorem generate_output_filename_sanitised (w : World) (business_name : string) :
  exists clean,
    generate_output_filename w (VStr business_name)
    = inr (clean ++ "_" ++ strftime w "%Y%m%d_%H%M%S" ++ ".txt")
    /\ String.length clean = Nat.min 30 (String.length business_name)
    /\ forallb (fun c => is_alnum c || Ascii.eqb c "_") clean = true
    /\ mem_char "/" clean = false
    /\ mem_char "." clean = false.
Proof.
  set (f := fun c : ascii => if is_alnum c then c else "_"%char).
  exists (slice 0 30 (PyStr.map f business_name)).
  assert (A : forallb (fun c => is_alnum c || Ascii.eqb c "_")
                      (slice 0 30 (PyStr.map f business_name)) = true).
  { apply forallb_slice_0, forallb_map. intros c. unfold f.
    destruct (is_alnum c) eqn:E; [rewrite E; reflexivity|reflexivity]. }
  split; [reflexivity|]. split; [|split; [exact A|split]].
  - destruct (slice_0_prefix 30 (PyStr.map f business_name)) as (rest & _ & L).
    rewrite L, length_map. reflexivity.
  - exact (forallb_not_mem _ "/" _ eq_refl A).
  - exact (forallb_not_mem _ "." _ eq_refl A).
Qed.

(** X11.  The flags of an extraction result: [success] tells that name,
    address and phone are all present, [partial_success] that at least
    one is; so [success] implies [partial_success], and a result of a
    failed browser session has neither flag and no name. *)
Theorem extractor_result_flags (w : World) (google_maps_url : string) :
  let r := ExtractorAgent.run w google_maps_url in
  truthy (dict_get r "success")
  = truthy (dict_get r "name") && truthy (dict_get r "address")
    && truthy (dict_get r "phone")
  /\ truthy (dict_get r "partial_success")
     = truthy (dict_get r "name") || truthy (dict_get r "address")
       || truthy (dict_get r "phone")
  /\ (truthy (dict_get r "success") = true ->
      truthy (dict_get r "partial_success") = true)
  /\ (forall e, scrape w google_maps_url = inl e ->
           truthy (dict_get r "success") = false
           /\ truthy (dict_get r "partial_success") = false
           /\ dict_get r "name" = VNone
           /\ dict_get r "error" = VStr e).
Proof.
  intros r. unfold r, ExtractorAgent.run.
  destruct (scrape w google_maps_url) as [e|[[name address] phone]].
  - cbn [bind try_except]. unfold BaseAgent.handle_error_dict.
    split; [reflexivity|]. split; [reflexivity|]. split; [discriminate|].
    intros e' E. injection E as <-. repeat split.
  - cbn [bind ret try_except].
    unfold dict_get. cbn [Dict.lookup String.eqb Ascii.eqb Bool.eqb].
    cbn [truthy].
    split; [reflexivity|]. split; [reflexivity|]. split; [|discriminate].
    destruct (truthy (ExtractorAgent.of_option name));
      [reflexivity|discriminate].
Qed.

Lemma extractor_result_flags_witness :
  truthy (dict_get (ExtractorAgent.run world_name_only maps_url_example) "success")
  = false
  /\ truthy (dict_get (ExtractorAgent.run world_name_only maps_url_example)
                      "partial_success") = true
  /\ dict_get (ExtractorAgent.run world_browser_crash maps_url_example) "error"
     = VStr "session not created".
Proof.
  split; [|split].
  - rewrite (proj1 (extractor_result_flags world_name_only maps_url_example)).
    reflexivity.
  - rewrite (proj1 (proj2 (extractor_result_flags world_name_only
                                                  maps_url_example))).
    reflexivity.
  - apply (proj2 (proj2 (proj2 (extractor_result_flags world_browser_crash
                                                       maps_url_example)))).
    reflexivity.
Defined.

End FileNames.

(* ===================================================================== *)
(** * Theorems: more on the Researcher *)
(* ===================================================================== *)

Section ResearcherResults.

Import ResearcherAgent.

Local Abbreviation domains :=
  [ "yelp.com"; "yellowpages.com"; "bbb.org"; "foursquare.com";
    "manta.com"; "superpages.com"; "chamberofcommerce.com";
    "mapquest.com"; "citysearch.com"; "tripadvisor.comhttps:";
    "provenexpert.com"; "businessseek.biz"; "tupalo.com" ].

(** X12.  Whether the research stage succeeds does not depend on the
    world: no outcome of the directory checks, not even the failure of
    all of them, and no outcome of the random source turns a success into
    a failure or back. *)
Theorem researcher_success_independent_of_world
        (w w' : World) (business_data : dict) :
  succeeded (run w business_data) = succeeded (run w' business_data).
Proof.
  destruct (truthy (dict_get business_data "name")) eqn:T.
  - destruct (search_query_of business_data) as [e|q] eqn:Q.
    + unfold run, run_try. rewrite T, Q. reflexivity.
    + destruct (run_succeeds w business_data q T Q) as [r R].
      destruct (run_succeeds w' business_data q T Q) as [r' R'].
      rewrite R, R'. reflexivity.
  - unfold run, run_try. rewrite T. reflexivity.
Qed.

Lemma checked_keys
        (w : World) (business_data : dict) (r : Results) :
  run w business_data = Success r ->
  Dict.keys (directories_checked r) = domains
  /\ Dict.len (directories_checked r) = 13.
Proof.
  intros H.
  destruct (run_success_inv w business_data r H) as (q & _ & C & _ & _).
  rewrite C. split; vm_compute; reflexivity.
Qed.

(** X13.  Every successful result has exactly thirteen entries in
    [directories_checked], keyed by the domains of the configured
    directories in their order. *)
Theorem researcher_checks_every_directory
        (w : World) (business_data : dict) (r : Results) :
  run w business_data = Success r ->
  Dict.keys (directories_checked r) = domains
  /\ Dict.len (directories_checked r) = 13.
Proof. apply checked_keys. Qed.

Lemma researcher_checks_every_directory_witness :
  exists r,
    run world_silent_failure joes_cafe = Success r
    /\ Dict.keys (directories_checked r) = domains
    /\ Dict.len (directories_checked r) = 13.
Proof.
  eexists. split; [vm_compute; reflexivity|].
  apply (researcher_checks_every_directory world_silent_failure joes_cafe).
  vm_compute. reflexivity.
Defined.

Lemma map_snd_filter {A B} (P : A * B -> bool) (Q : B -> bool) (l : list (A * B)) :
  (forall p, In p l -> P p = Q (snd p)) ->
  List.map snd (List.filter P l) = List.filter Q (List.map snd l).
Proof.
  induction l as [|p l IH]; intros H; cbn [List.filter List.map]; [reflexivity|].
  rewrite <- (H p (or_introl eq_refl)).
  rewrite <- IH by (intros p' I; apply H; right; exact I).
  destruct (P p); reflexivity.
Qed.

(** X14.  In every successful result, [missing_directories] lists, in the
    order of [directories_checked], exactly the domains whose entry has
    [exists] false. *)
Theorem researcher_missing_are_absent_entries
        (w : World) (business_data : dict) (r : Results) :
  run w business_data = Success r ->
  missing_directories r
  = List.filter
      (fun d => match Dict.lookup (directories_checked r) d with
                | Some e => negb (exists_ e)
                | None => false
                end)
      (Dict.keys (directories_checked r))
  /\ (forall d, In d (missing_directories r) <->
           exists e, Dict.lookup (directories_checked r) d = Some e
                     /\ exists_ e = false).
Proof.
  intros H.
  destruct (checked_keys w business_data r H) as [K _].
  destruct (run_success_inv w business_data r H) as (q & _ & C & M & _).
  assert (E : missing_directories r
              = List.filter
                  (fun d => match Dict.lookup (directories_checked r) d with
                            | Some e => negb (exists_ e)
                            | None => false
                            end)
                  (Dict.keys (directories_checked r))).
  { rewrite K, M.
    replace domains with (List.map snd (combine BUSINESS_DIRECTORIES domains))
      by reflexivity.
    apply map_snd_filter. intros [u d] I. cbn [fst snd].
    rewrite C.
    rewrite (lookup_recorded w q business_data _ _ _ _
               configured_domains_distinct I).
    unfold entry_of, is_missing.
    destruct (_check_directory w u q business_data); reflexivity. }
  split; [exact E|].
  intros d. rewrite E, filter_In. split.
  - intros [_ L].
    destruct (Dict.lookup (directories_checked r) d) as [e|]; [|discriminate L].
    exists e. split; [reflexivity|]. apply negb_true_iff. exact L.
  - intros (e & L & X). split.
    + apply in_keys_lookup. congruence.
    + rewrite L, X. reflexivity.
Qed.

Lemma researcher_missing_are_absent_entries_witness :
  exists r,
    run world_silent_failure joes_cafe = Success r
    /\ missing_directories r
       = List.filter
           (fun d => match Dict.lookup (directories_checked r) d with
                     | Some e => negb (exists_ e)
                     | None => false
                     end)
           (Dict.keys (directories_checked r))
    /\ (forall d, In d (missing_directories r) <->
             exists e, Dict.lookup (directories_checked r) d = Some e
                       /\ exists_ e = false).
Proof.
  eexists. split; [vm_compute; reflexivity|].
  apply (researcher_missing_are_absent_entries world_silent_failure joes_cafe).
  vm_compute. reflexivity.
Defined.

Lemma researcher_selected_configured
      (w : World) (business_data : dict) (r : Results) :
  run w business_data = Success r ->
  incl (missing_directories r) domains
  /\ NoDup (missing_directories r)
  /\ incl (selected_directories r) (missing_directories r)
  /\ NoDup (selected_directories r)
  /\ List.length (selected_directories r)
     = Nat.min 2 (List.length (missing_directories r)).
Proof.
  intros H.
  destruct (run_success_inv w business_data r H) as (q & _ & _ & M & S).
  assert (ND : NoDup (missing_directories r)).
  { rewrite M. apply NoDup_map_snd_filter, configured_domains_distinct. }
  split.
  - rewrite M. intros d I. apply in_map_iff in I.
    destruct I as (p & <- & I). apply filter_In in I. destruct I as [I _].
    replace domains with (List.map snd (combine BUSINESS_DIRECTORIES domains))
      by reflexivity.
    apply in_map. exact I.
  - split; [exact ND|].
    destruct (select_eq w (missing_directories r) ND) as (sel & S' & H2 & H1).
    rewrite S in S'. injection S' as <-.
    destruct (Nat.le_gt_cases 2 (List.length (missing_directories r))) as [L|L].
    + destruct (H2 L) as (L2 & N2 & I2).
      split; [exact I2|]. split; [exact N2|]. lia.
    + rewrite (H1 L). split; [apply incl_refl|]. split; [exact ND|]. lia.
Qed.

(** X15.  The directories that the Researcher selects are domains such as
    "yelp.com", while the templates of the Citation Builder are keyed by
    "yelp", "bbb" and the like: every directory selected by a successful
    research run is formatted with the generic template. *)
Theorem pipeline_citations_are_generic
        (w : World) (business_data : dict) (r : Results) :
  run w business_data = Success r ->
  forall d name address phone,
    In d (selected_directories r) ->
    CitationBuilderAgent.format_citation name address phone d
    = CitationBuilderAgent._format_generic_citation name address phone d.
Proof.
  intros H d name address phone I.
  destruct (researcher_selected_configured w business_data r H)
    as (Im & _ & Is & _).
  apply Is, Im in I. cbn [In] in I.
  repeat (destruct I as [<-|I]; [reflexivity|]).
  destruct I.
Qed.

Lemma pipeline_citations_are_generic_witness :
  exists r,
    run world_silent_failure joes_cafe = Success r
    /\ selected_directories r = ["yelp.com"]
    /\ forall d name address phone,
        In d (selected_directories r) ->
        CitationBuilderAgent.format_citation name address phone d
        = CitationBuilderAgent._format_generic_citation name address phone d.
Proof.
  eexists. split; [vm_compute; reflexivity|].
  split; [reflexivity|].
  apply (pipeline_citations_are_generic world_silent_failure joes_cafe).
  vm_compute. reflexivity.
Defined.

(** X16.  The chart of [display_success_view] compares names such as
    "yelp" with the missing domains such as "yelp.com": for the
    [missing_directories] of every successful research run, each of its
    rows has the status "Present". *)
Theorem directory_chart_all_present
        (w : World) (business_data : dict) (r : Results) :
  run w business_data = Success r ->
  Forall (fun row => snd row = "Present")
         (directory_data (missing_directories r)).
Proof.
  intros H.
  destruct (researcher_selected_configured w business_data r H) as (Im & _).
  assert (X : forall name,
             ~ In name domains ->
             existsb (String.eqb name) (missing_directories r) = false).
  { intros name NI.
    destruct (existsb (String.eqb name) (missing_directories r)) eqn:E;
      [|reflexivity].
    apply existsb_exists in E. destruct E as (d & I & E).
    apply String.eqb_eq in E. subst d. exfalso. apply NI, Im, I. }
  unfold directory_data. apply Forall_forall. intros row I.
  apply in_map_iff in I. destruct I as (dir & <- & I). cbn [snd].
  rewrite X; [reflexivity|].
  cbn [In BUSINESS_DIRECTORIES] in I.
  repeat (destruct I as [<-|I];
          [vm_compute; intuition discriminate|]).
  destruct I.
Qed.

Lemma directory_chart_all_present_witness :
  exists r,
    run world_offline joes_cafe = Success r
    /\ List.length (missing_directories r) = 13
    /\ Forall (fun row => snd row = "Present")
              (directory_data (missing_directories r)).
Proof.
  eexists. split; [vm_compute; reflexivity|].
  split; [reflexivity|].
  apply (directory_chart_all_present world_offline joes_cafe).
  vm_compute. reflexivity.
Defined.

End ResearcherResults.

(* ===================================================================== *)
(** * Theorems: more on the Summary Generator *)
(* ===================================================================== *)

Section SummaryShape.

Import PyStr SummaryAgent.

(** X17.  A rendered summary with at least the minimum number of words
    yields a result of at most the maximum number of words: it is
    returned unchanged when it is within the bounds, and otherwise the
    result consists of its first 150 words, in their order. *)
Theorem summary_keeps_or_cuts
        (business_name : value) (directories_checked : nat)
        (missing_directories selected_directories : list string) :
  let text := render_summary business_name directories_checked
                             missing_directories selected_directories in
  let result := _generate_summary business_name directories_checked
                                  missing_directories selected_directories in
  fst SUMMARY_WORD_COUNT <= List.length (split_ws text) ->
  List.length (split_ws result) <= snd SUMMARY_WORD_COUNT
  /\ (List.length (split_ws text) <= snd SUMMARY_WORD_COUNT -> result = text)
  /\ (snd SUMMARY_WORD_COUNT < List.length (split_ws text) ->
      split_ws result = firstn (snd SUMMARY_WORD_COUNT) (split_ws text)).
Proof.
  intros text result. unfold result, _generate_summary.
  cbn [SUMMARY_WORD_COUNT fst snd]. fold text. intros Hmin.
  destruct (Nat.le_gt_cases (List.length (split_ws text)) 150) as [L|L].
  - assert (E : bound_summary 100 150 business_name text = text).
    { unfold bound_summary.
      destruct (Nat.ltb_spec (List.length (split_ws text)) 100); [lia|].
      destruct (Nat.ltb_spec 150 (List.length (split_ws text))); [lia|].
      reflexivity. }
    rewrite E. split; [exact L|]. split; [reflexivity|lia].
  - destruct (bound_summary_long 100 150 business_name text Hmin L) as [E N].
    split; [lia|]. split; [lia|]. intros _.
    rewrite E. apply split_ws_join, Forall_firstn, split_ws_words.
Qed.

Lemma summary_keeps_or_cuts_witness :
  List.length
    (split_ws (_generate_summary long_name 13 ["yelp.com"; "bbb.org"]
                                 ["yelp.com"; "bbb.org"]))
  <= snd SUMMARY_WORD_COUNT
  /\ (List.length
        (split_ws (render_summary long_name 13 ["yelp.com"; "bbb.org"]
                                  ["yelp.com"; "bbb.org"]))
      <= snd SUMMARY_WORD_COUNT ->
      _generate_summary long_name 13 ["yelp.com"; "bbb.org"]
                        ["yelp.com"; "bbb.org"]
      = render_summary long_name 13 ["yelp.com"; "bbb.org"]
                       ["yelp.com"; "bbb.org"])
  /\ (snd SUMMARY_WORD_COUNT
      < List.length
          (split_ws (render_summary long_name 13 ["yelp.com"; "bbb.org"]
                                    ["yelp.com"; "bbb.org"])) ->
      split_ws (_generate_summary long_name 13 ["yelp.com"; "bbb.org"]
                                  ["yelp.com"; "bbb.org"])
      = firstn (snd SUMMARY_WORD_COUNT)
               (split_ws (render_summary long_name 13 ["yelp.com"; "bbb.org"]
                                         ["yelp.com"; "bbb.org"]))).
Proof.
  apply (summary_keeps_or_cuts long_name 13 ["yelp.com"; "bbb.org"]
                               ["yelp.com"; "bbb.org"]).
  vm_compute. lia.
Defined.

End SummaryShape.

(* ===================================================================== *)
(** * Theorems: more on the Orchestrator *)
(* ===================================================================== *)

Section Pipeline.

Import PyStr.

Local Abbreviation all_agents :=
  [Extractor; Researcher; CitationBuilder; SummaryGenerator].

(** [run_workflow] once the output directory exists and the URL is not
    blank. *)
Lemma run_workflow_eq (w : World) (maps_url : string) :
  makedirs w (get_output_directory w) = inr tt ->
  nonempty maps_url = true ->
  nonempty (strip maps_url) = true ->
  run_workflow w maps_url
  = let extraction_results := ExtractorAgent.run w maps_url in
    if negb (truthy (dict_get extraction_results "success"))
       && negb (truthy (dict_get extraction_results "partial_success"))
    then ([Extractor],
          inr (Halted "extraction"
                 (dict_get_default extraction_results "error"
                    (VStr "Failed to extract required information"))))
    else if negb (truthy (dict_get extraction_results "name"))
    then ([Extractor],
          inr (Halted "extraction"
                 (VStr "Failed to extract business name, which is required")))
    else (Extractor
            :: fst (run_stages w (get_output_directory w)
                               (fill_fields extraction_results)),
          inr (snd (run_stages w (get_output_directory w)
                               (fill_fields extraction_results)))).
Proof.
  intros M U1 U2.
  unfold run_workflow, ensure_output_directory. rewrite M. cbn [bind ret].
  rewrite U1, U2. cbn [negb orb]. unfold await, tbind. cbv zeta.
  destruct (negb (truthy (dict_get (ExtractorAgent.run w maps_url) "success"))
            && negb (truthy (dict_get (ExtractorAgent.run w maps_url)
                                      "partial_success"))); [reflexivity|].
  destruct (negb (truthy (dict_get (ExtractorAgent.run w maps_url) "name")));
    [reflexivity|].
  destruct (run_stages w (get_output_directory w)
                       (fill_fields (ExtractorAgent.run w maps_url)))
    as [t r].
  unfold tret, ret. cbn [fst snd app]. rewrite app_nil_r. reflexivity.
Qed.

(** The stages after the extraction, when the three agents succeed. *)
Lemma run_stages_eq (w : World) (output_dir : string) (extraction_results : dict)
      r c s :
  ResearcherAgent.run w extraction_results = Success r ->
  CitationBuilderAgent.run extraction_results
                           (ResearcherAgent.selected_directories r)
  = Success c ->
  SummaryAgent.run extraction_results r c = Success s ->
  run_stages w output_dir extraction_results
  = ([Researcher; CitationBuilder; SummaryGenerator],
     try_except
       (r' <- create_output w output_dir extraction_results r
                (CitationBuilderAgent.citations c) (SummaryAgent.summary s) ;;
        ret (Completed r'))
       (fun e => Halted "output" (VStr e))).
Proof.
  intros R C S. unfold run_stages, await, tbind, tret.
  rewrite R, C, S. reflexivity.
Qed.

(** The extraction result when the browser session found a name. *)
Lemma extraction_with_name (w : World) (maps_url n : string) a p :
  scrape w maps_url = inr (Some n, a, p) ->
  n <> "" ->
  ExtractorAgent.run w maps_url
  = [ ("success",
       VBool (truthy (ExtractorAgent.of_option a)
              && truthy (ExtractorAgent.of_option p)));
      ("partial_success", VBool true);
      ("name", VStr n);
      ("address", ExtractorAgent.of_option a);
      ("phone", ExtractorAgent.of_option p);
      ("source_url", VStr maps_url) ].
Proof.
  intros S N. unfold ExtractorAgent.run. rewrite S.
  destruct n; [contradiction|]. reflexivity.
Qed.

Lemma fill_fields_extraction (w : World) (maps_url : string) found :
  scrape w maps_url = inr found ->
  fill_fields (ExtractorAgent.run w maps_url) = ExtractorAgent.run w maps_url.
Proof.
  intros S. unfold ExtractorAgent.run. rewrite S.
  destruct found as [[name address] phone]. reflexivity.
Qed.

(** X18.  The three assignments that follow the validation of the name
    change nothing in the result of an extraction whose browser session
    ended normally: the keys are always present, so that the defaults
    "Address unavailable" and "Phone unavailable" are never used, whether
    the fields hold text, the empty string or [None]. *)
Theorem fill_fields_is_identity_on_extractions
        (w : World) (maps_url : string)
        (found : option string * option string * option string) :
  scrape w maps_url = inr found ->
  fill_fields (ExtractorAgent.run w maps_url) = ExtractorAgent.run w maps_url.
Proof. apply fill_fields_extraction. Qed.

Lemma fill_fields_is_identity_on_extractions_witness :
  fill_fields (ExtractorAgent.run world_name_alone maps_url_example)
  = ExtractorAgent.run world_name_alone maps_url_example.
Proof.
  apply (fill_fields_is_identity_on_extractions
           world_name_alone maps_url_example (Some "Joe's Cafe", None, None)).
  reflexivity.
Defined.

(** The search query of an extraction result with a name. *)
Lemma search_query_of_extraction (n maps_url : string) a p success :
  exists q,
    ResearcherAgent.search_query_of
      [ ("success", success); ("partial_success", VBool true);
        ("name", VStr n);
        ("address", ExtractorAgent.of_option a);
        ("phone", ExtractorAgent.of_option p);
        ("source_url", VStr maps_url) ] = inr q.
Proof.
  unfold ResearcherAgent.search_query_of, dict_item, dict_get_default.
  cbn [Dict.lookup String.eqb Ascii.eqb Bool.eqb bind ret].
  destruct a as [s|]; cbn [ExtractorAgent.of_option].
  - destruct (truthy (VStr s)
              && negb (value_eqb (VStr s) (VStr "Address unavailable")));
      eexists; reflexivity.
  - eexists. reflexivity.
Qed.

Lemma prefix_app_r sub s b :
  prefix sub s = true -> prefix sub (s ++ b) = true.
Proof.
  revert s. induction sub as [|c sub IH]; intros s H.
  - destruct (s ++ b); reflexivity.
  - destruct s as [|x s]; [discriminate H|].
    cbn [append prefix] in *.
    destruct (ascii_dec c x); [apply IH; exact H|discriminate H].
Qed.

Lemma contains_app_l sub a b :
  contains sub a = true -> contains sub (a ++ b) = true.
Proof.
  induction a as [|c a IH]; intros H.
  - rewrite contains_unfold in H. rewrite orb_false_r in H.
    rewrite contains_unfold. rewrite (prefix_app_r _ _ b H). reflexivity.
  - rewrite contains_unfold in H. apply orb_prop in H.
    cbn [append]. rewrite contains_unfold.
    destruct H as [H|H].
    + change (String c (a ++ b)) with (String c a ++ b).
      rewrite (prefix_app_r _ _ b H). reflexivity.
    + rewrite (IH H). apply orb_true_r.
Qed.

Lemma citation_blocks_keeps x cits :
  forall content,
    contains x content = true ->
    contains x (citation_blocks cits content) = true.
Proof.
  unfold citation_blocks.
  induction cits as [|[d c] cits IH]; intros content H; cbn [fold_left].
  - exact H.
  - apply IH, contains_app_l, H.
Qed.

Lemma citation_blocks_contains cits :
  forall content d c,
    In (d, c) cits ->
    contains c (citation_blocks cits content) = true.
Proof.
  induction cits as [|[d0 c0] cits IH]; intros content d c I.
  - destruct I.
  - destruct I as [E|I].
    + injection E as -> ->. unfold citation_blocks. cbn [fold_left].
      apply (citation_blocks_keeps c cits).
      repeat first [ apply contains_here | apply contains_skip ].
    + unfold citation_blocks. cbn [fold_left]. apply IH with (d := d). exact I.
Qed.

Lemma lookup_In {V} (d : Dict.t V) k v :
  Dict.lookup d k = Some v -> In (k, v) d.
Proof.
  induction d as [|[k0 v0] d IH]; cbn [Dict.lookup]; [discriminate|].
  destruct (String.eqb_spec k0 k) as [->|N].
  - intros E. injection E as ->. left. reflexivity.
  - intros H. right. apply IH, H.
Qed.

(** Step 5 on the result of an extraction with a name. *)
Lemma create_output_eq (w : World) (maps_url n : string) a p success
      (r : ResearcherAgent.Results) (cits : Dict.t string) (summ : string) :
  makedirs w (get_output_directory w) = inr tt ->
  let er := [ ("success", success); ("partial_success", VBool true);
              ("name", VStr n);
              ("address", ExtractorAgent.of_option a);
              ("phone", ExtractorAgent.of_option p);
              ("source_url", VStr maps_url) ] in
  exists filename content,
    generate_output_filename w (VStr n) = inr filename
    /\ create_output w (get_output_directory w) er r cits summ
       = match write_file w (path_join (get_output_directory w) filename)
                          content with
         | inl e => inl e
         | inr _ =>
             inr {| business_name := VStr n;
                    output_file := path_join (get_output_directory w) filename;
                    business_info := er;
                    directories_checked :=
                      Dict.len (ResearcherAgent.directories_checked r);
                    directories_missing :=
                      List.length (ResearcherAgent.missing_directories r);
                    missing_directories :=
                      ResearcherAgent.missing_directories r;
                    citations_created := Dict.len cits;
                    citations := cits;
                    summary := summ;
                    content := content |}
         end
    /\ contains n content = true
    /\ contains summ content = true
    /\ (forall d c, In (d, c) cits -> contains c content = true).
Proof.
  intros M er.
  eexists. eexists. split; [reflexivity|]. split.
  - unfold create_output, er, dict_item.
    cbn [Dict.lookup String.eqb Ascii.eqb Bool.eqb bind ret].
    unfold generate_output_filename. cbn [bind ret].
    unfold business_information, dict_item.
    cbn [Dict.lookup String.eqb Ascii.eqb Bool.eqb bind ret].
    unfold save_text_file, ensure_directory_exists. rewrite M. cbn [bind].
    match goal with
    | |- bind (bind (write_file w ?f ?c) _) _ = _ =>
        destruct (write_file w f c) as [e|[]] eqn:W
    end.
    + cbn [bind]. erewrite W. reflexivity.
    + cbn [bind ret]. erewrite W. reflexivity.
  - split; [|split].
    + apply citation_blocks_keeps. cbn [py_str].
      repeat first [ apply contains_app_l; apply contains_skip; apply contains_here
                   | apply contains_app_l ].
    + apply citation_blocks_keeps. cbn [py_str].
      apply contains_app_l.
      repeat first [ apply contains_here | apply contains_skip ].
    + intros d c I. apply citation_blocks_contains with (d := d). exact I.
Qed.

(** The run of the workflow once the browser session found a name: all
    four agents run, and the result is the report or a failure of the
    output stage, depending on the write of the report file alone. *)
Lemma run_workflow_with_name (w : World) (maps_url n : string) a p :
  makedirs w (get_output_directory w) = inr tt ->
  nonempty maps_url = true ->
  nonempty (strip maps_url) = true ->
  scrape w maps_url = inr (Some n, a, p) ->
  n <> "" ->
  exists r filename text rep,
    ResearcherAgent.run w (ExtractorAgent.run w maps_url) = Success r
    /\ generate_output_filename w (VStr n) = inr filename
    /\ run_workflow w maps_url
       = (all_agents,
          inr (match write_file w (path_join (get_output_directory w) filename)
                                text with
               | inl e => Halted "output" (VStr e)
               | inr _ => Completed rep
               end))
    /\ business_name rep = VStr n
    /\ output_file rep = path_join (get_output_directory w) filename
    /\ business_info rep = ExtractorAgent.run w maps_url
    /\ directories_checked rep
       = Dict.len (ResearcherAgent.directories_checked r)
    /\ directories_missing rep
       = List.length (ResearcherAgent.missing_directories r)
    /\ missing_directories rep = ResearcherAgent.missing_directories r
    /\ citations_created rep = Dict.len (citations rep)
    /\ CitationBuilderAgent.run (ExtractorAgent.run w maps_url)
         (ResearcherAgent.selected_directories r)
       = Success {| CitationBuilderAgent.citations := citations rep |}
    /\ content rep = text
    /\ contains n text = true
    /\ contains (summary rep) text = true
    /\ (forall d c, In (d, c) (citations rep) -> contains c text = true).
Proof.
  intros M U1 U2 S N.
  pose proof (extraction_with_name w maps_url n a p S N) as E.
  pose proof (fill_fields_extraction w maps_url _ S) as F.
  rewrite (run_workflow_eq w maps_url M U1 U2). cbv zeta. rewrite F.
  rewrite E.
  set (er := [ ("success", _); ("partial_success", VBool true);
               ("name", VStr n);
               ("address", ExtractorAgent.of_option a);
               ("phone", ExtractorAgent.of_option p);
               ("source_url", VStr maps_url) ]).
  assert (Tn : truthy (VStr n) = true)
    by (destruct n; [contradiction|reflexivity]).
  assert (G1 : truthy (dict_get er "partial_success") = true) by reflexivity.
  assert (G2 : truthy (dict_get er "name") = true) by exact Tn.
  rewrite G1, G2. cbn [negb]. rewrite andb_false_r.
  destruct (search_query_of_extraction n maps_url a p
              (VBool (truthy (ExtractorAgent.of_option a)
                      && truthy (ExtractorAgent.of_option p)))) as [q Q].
  fold er in Q.
  destruct (run_succeeds w er q G2 Q) as [r R].
  pose proof (citation_builder_run_eq er
                (ResearcherAgent.selected_directories r) n eq_refl N) as C.
  assert (Hp : forall v, Dict.lookup er "phone" = Some v -> none_or_str v = true).
  { intros v H. unfold er in H. cbn in H. injection H as <-.
    destruct p; reflexivity. }
  specialize (C Hp).
  rewrite (run_stages_eq w (get_output_directory w) er r _ _ R C eq_refl).
  cbn [fst snd CitationBuilderAgent.citations SummaryAgent.summary].
  destruct (create_output_eq w maps_url n a p
              (VBool (truthy (ExtractorAgent.of_option a)
                      && truthy (ExtractorAgent.of_option p)))
              r
              (fold_left
                 (fun acc d =>
                    Dict.set acc d
                      (CitationBuilderAgent.format_citation
                         (VStr n) (citation_address er)
                         (VStr (citation_phone er)) d))
                 (ResearcherAgent.selected_directories r) Dict.empty)
              (SummaryAgent._generate_summary
                 (dict_get_default er "name" (VStr "Unknown business"))
                 (Dict.len (ResearcherAgent.directories_checked r))
                 (ResearcherAgent.missing_directories r)
                 (ResearcherAgent.selected_directories r))
              M)
    as (filename & text & Gf & Co & Cn & Cs & Cc).
  fold er in Co.
  exists r, filename, text.
  eexists.
  split; [exact R|]. split; [exact Gf|]. split.
  - rewrite Co.
    destruct (write_file w (path_join (get_output_directory w) filename) text);
      cbn [bind ret try_except]; reflexivity.
  - cbn [business_name output_file business_info directories_checked
         directories_missing missing_directories citations_created
         citations summary content].
    repeat split; try reflexivity; try assumption.
Qed.

(** The four ways a run of the workflow can go. *)
Lemma run_workflow_cases (w : World) (maps_url : string) :
  (exists e, makedirs w (get_output_directory w) = inl e
             /\ run_workflow w maps_url = ([], inl e))
  \/ (makedirs w (get_output_directory w) = inr tt
      /\ forallb is_space maps_url = true
      /\ run_workflow w maps_url
         = ([], inr (Halted "validation" (VStr "Google Maps URL cannot be empty"))))
  \/ (makedirs w (get_output_directory w) = inr tt
      /\ forallb is_space maps_url = false
      /\ exists error,
          run_workflow w maps_url
          = ([Extractor], inr (Halted "extraction" error)))
  \/ (makedirs w (get_output_directory w) = inr tt
      /\ forallb is_space maps_url = false
      /\ nonempty maps_url = true
      /\ nonempty (strip maps_url) = true
      /\ exists n a p, scrape w maps_url = inr (Some n, a, p) /\ n <> "").
Proof.
  destruct (makedirs w (get_output_directory w)) as [e|[]] eqn:M.
  { left. exists e. split; [reflexivity|].
    unfold run_workflow, ensure_output_directory. rewrite M. reflexivity. }
  right.
  destruct (forallb is_space maps_url) eqn:B.
  { left. split; [reflexivity|]. split; [reflexivity|].
    unfold run_workflow, ensure_output_directory. rewrite M. cbn [bind ret].
    apply strip_empty_iff in B. rewrite B. cbn [negb].
    rewrite orb_true_r. reflexivity. }
  right.
  assert (U2 : nonempty (strip maps_url) = true).
  { destruct (nonempty (strip maps_url)) eqn:U; [reflexivity|].
    apply strip_empty_iff in U. congruence. }
  assert (U1 : nonempty maps_url = true).
  { destruct maps_url; [discriminate U2|reflexivity]. }
  destruct (scrape w maps_url) as [e|[[[n|] a] p]] eqn:S.
  - left. split; [reflexivity|]. split; [reflexivity|].
    rewrite (run_workflow_eq w maps_url M U1 U2). cbv zeta.
    unfold ExtractorAgent.run. rewrite S. eexists. reflexivity.
  - destruct (string_dec n "") as [->|N].
    + left. split; [reflexivity|]. split; [reflexivity|].
      rewrite (run_workflow_eq w maps_url M U1 U2). cbv zeta.
      unfold ExtractorAgent.run. rewrite S. cbn [bind ret try_except].
      match goal with
      | |- context [if ?b then _ else _] => destruct b
      end; eexists; reflexivity.
    + right. repeat split; try assumption; try reflexivity.
      exists n, a, p. split; [reflexivity|exact N].
  - left. split; [reflexivity|]. split; [reflexivity|].
    rewrite (run_workflow_eq w maps_url M U1 U2). cbv zeta.
    unfold ExtractorAgent.run. rewrite S. cbn [bind ret try_except].
    match goal with
    | |- context [if ?b then _ else _] => destruct b
    end; eexists; reflexivity.
Qed.

(** X19.  The agents run in the order of the pipeline and no run stops
    between the Researcher and the Summary Generator: the agents awaited
    by a run are none, the Extractor alone, or all four in order. *)
Theorem run_workflow_agents_in_order (w : World) (maps_url : string) :
  fst (run_workflow w maps_url) = []
  \/ fst (run_workflow w maps_url) = [Extractor]
  \/ fst (run_workflow w maps_url) = all_agents.
Proof.
  destruct (run_workflow_cases w maps_url)
    as [(e & _ & R)|[(_ & _ & R)|[(_ & _ & err & R)
       |(M & _ & U1 & U2 & n & a & p & S & N)]]].
  - left. rewrite R. reflexivity.
  - left. rewrite R. reflexivity.
  - right. left. rewrite R. reflexivity.
  - right. right.
    destruct (run_workflow_with_name w maps_url n a p M U1 U2 S N)
      as (r & filename & text & rep & _ & _ & R & _).
    rewrite R. reflexivity.
Qed.

(** X20.  A run that halts names one of three stages: "validation" when
    no agent ran, "extraction" when only the Extractor ran, "output" when
    all four agents ran.  The stages "research", "citation_building" and
    "summary" are never reported. *)
Theorem run_workflow_halting_stages
        (w : World) (maps_url stage : string) (error : value) :
  snd (run_workflow w maps_url) = inr (Halted stage error) ->
  (stage = "validation" /\ fst (run_workflow w maps_url) = [])
  \/ (stage = "extraction" /\ fst (run_workflow w maps_url) = [Extractor])
  \/ (stage = "output" /\ fst (run_workflow w maps_url) = all_agents).
Proof.
  destruct (run_workflow_cases w maps_url)
    as [(e & _ & R)|[(_ & _ & R)|[(_ & _ & err & R)
       |(M & _ & U1 & U2 & n & a & p & S & N)]]].
  - rewrite R. discriminate.
  - rewrite R. cbn [fst snd]. intros H. injection H as <- _. left. auto.
  - rewrite R. cbn [fst snd]. intros H. injection H as <- _. right. left. auto.
  - destruct (run_workflow_with_name w maps_url n a p M U1 U2 S N)
      as (r & filename & text & rep & _ & _ & R & _).
    rewrite R. cbn [fst snd].
    destruct (write_file w (path_join (get_output_directory w) filename) text);
      intros H; [|discriminate H].
    injection H as <- _. right. right. auto.
Qed.

Lemma run_workflow_halting_stages_witness :
  (("extraction" = "validation"
    /\ fst (run_workflow world_browser_crash maps_url_example) = [])
   \/ ("extraction" = "extraction"
       /\ fst (run_workflow world_browser_crash maps_url_example) = [Extractor])
   \/ ("extraction" = "output"
       /\ fst (run_workflow world_browser_crash maps_url_example) = all_agents))
  /\ (("output" = "validation"
       /\ fst (run_workflow world_disk_full maps_url_example) = [])
      \/ ("output" = "extraction"
          /\ fst (run_workflow world_disk_full maps_url_example) = [Extractor])
      \/ ("output" = "output"
          /\ fst (run_workflow world_disk_full maps_url_example) = all_agents)).
Proof.
  split.
  - apply (run_workflow_halting_stages world_browser_crash maps_url_example
             "extraction" (VStr "session not created")).
    reflexivity.
  - apply (run_workflow_halting_stages world_disk_full maps_url_example
             "output" (VStr "No space left on device")).
    vm_compute. reflexivity.
Defined.

(** X21.  No agent runs exactly when the output directory cannot be
    created or the URL is blank (empty or white space only).  The
    directory is created first: when that fails, the exception leaves
    [run_workflow], also for a blank URL. *)
Theorem run_workflow_runs_no_agent_iff (w : World) (maps_url : string) :
  (fst (run_workflow w maps_url) = []
   <-> (exists e, makedirs w (get_output_directory w) = inl e)
       \/ forallb is_space maps_url = true)
  /\ (forall e, makedirs w (get_output_directory w) = inl e ->
           run_workflow w maps_url = ([], inl e)).
Proof.
  split.
  - destruct (run_workflow_cases w maps_url)
      as [(e & M & R)|[(_ & B & R)|[(M & B & err & R)
         |(M & B & U1 & U2 & n & a & p & S & N)]]].
    + rewrite R. split; [intros _; left; eauto|reflexivity].
    + rewrite R. split; [intros _; right; exact B|reflexivity].
    + rewrite R. split; [discriminate|].
      intros [[e M']|B']; congruence.
    + destruct (run_workflow_with_name w maps_url n a p M U1 U2 S N)
        as (r & filename & text & rep & _ & _ & R & _).
      rewrite R. split; [discriminate|].
      intros [[e M']|B']; congruence.
  - intros e M. unfold run_workflow, ensure_output_directory.
    rewrite M. reflexivity.
Qed.

Lemma run_workflow_runs_no_agent_iff_witness :
  run_workflow world_read_only "" = ([], inl "Read-only file system")
  /\ fst (run_workflow world_offline "   ") = [].
Proof.
  split.
  - apply (proj2 (run_workflow_runs_no_agent_iff world_read_only "")).
    reflexivity.
  - apply (proj1 (run_workflow_runs_no_agent_iff world_offline "   ")).
    right. reflexivity.
Defined.

Lemma NoDup_incl_le {A} (l l' : list A) :
  NoDup l -> incl l l' -> List.length l <= List.length l'.
Proof. apply NoDup_incl_length. Qed.

(** What a completed run reports. *)
Lemma completed_inv (w : World) (maps_url : string) t (rep : Report) :
  run_workflow w maps_url = (t, inr (Completed rep)) ->
  exists r n,
    t = all_agents
    /\ ResearcherAgent.run w (ExtractorAgent.run w maps_url) = Success r
    /\ business_name rep = VStr n
    /\ business_info rep = ExtractorAgent.run w maps_url
    /\ directories_checked rep
       = Dict.len (ResearcherAgent.directories_checked r)
    /\ directories_missing rep
       = List.length (ResearcherAgent.missing_directories r)
    /\ missing_directories rep = ResearcherAgent.missing_directories r
    /\ citations_created rep = Dict.len (citations rep)
    /\ CitationBuilderAgent.run (ExtractorAgent.run w maps_url)
         (ResearcherAgent.selected_directories r)
       = Success {| CitationBuilderAgent.citations := citations rep |}
    /\ contains n (content rep) = true
    /\ contains (summary rep) (content rep) = true
    /\ (forall d c, In (d, c) (citations rep) -> contains c (content rep) = true).
Proof.
  intros H.
  destruct (run_workflow_cases w maps_url)
    as [(e & _ & R)|[(_ & _ & R)|[(_ & _ & err & R)
       |(M & _ & U1 & U2 & n & a & p & S & N)]]];
    try (rewrite R in H; discriminate H).
  destruct (run_workflow_with_name w maps_url n a p M U1 U2 S N)
    as (r & filename & text & rep' & R0 & _ & R & F).
  rewrite R in H.
  destruct (write_file w (path_join (get_output_directory w) filename) text);
    [discriminate H|].
  injection H as <- <-.
  destruct F as (F1 & F2 & F3 & F4 & F5 & F6 & F7 & F8 & F9 & F10 & F11 & F12).
  exists r, n. rewrite F9. repeat split; assumption.
Qed.

(** X22.  The numbers of a completed report: thirteen directories were
    checked, [directories_missing] is the length of
    [missing_directories] and at most thirteen, and [citations_created]
    is the number of citations, which is two when at least two
    directories are missing and the number of missing directories
    otherwise. *)
Theorem run_workflow_report_counts
        (w : World) (maps_url : string) (t : list Agent) (rep : Report) :
  run_workflow w maps_url = (t, inr (Completed rep)) ->
  t = all_agents
  /\ directories_checked rep = 13
  /\ directories_missing rep = List.length (missing_directories rep)
  /\ directories_missing rep <= 13
  /\ citations_created rep = Dict.len (citations rep)
  /\ citations_created rep = Nat.min 2 (directories_missing rep)
  /\ business_info rep = ExtractorAgent.run w maps_url.
Proof.
  intros H.
  destruct (completed_inv w maps_url t rep H)
    as (r & n & T & R & _ & Bi & Dc & Dm & Md & Cc & C & _).
  destruct (checked_keys w _ r R) as [_ L].
  destruct (researcher_selected_configured w _ r R) as (Im & NDm & _ & NDs & Ls).
  destruct (citation_keys _ _ _ C) as (_ & _ & K & _).
  cbn [CitationBuilderAgent.citations] in K.
  split; [exact T|]. split; [congruence|]. split; [congruence|].
  split; [|split; [exact Cc|split; [|exact Bi]]].
  - rewrite Dm. apply (NoDup_incl_le _ _ NDm Im).
  - rewrite Cc, Dm, <- Ls.
    unfold Dict.len. rewrite <- (K NDs). unfold Dict.keys.
    rewrite List.length_map. reflexivity.
Qed.

Lemma run_workflow_report_counts_witness :
  exists rep,
    run_workflow world_offline maps_url_example = (all_agents, inr (Completed rep))
    /\ directories_missing rep = 13
    /\ citations_created rep = 2
    /\ all_agents = all_agents
    /\ directories_checked rep = 13
    /\ directories_missing rep = List.length (missing_directories rep)
    /\ directories_missing rep <= 13
    /\ citations_created rep = Dict.len (citations rep)
    /\ citations_created rep = Nat.min 2 (directories_missing rep)
    /\ business_info rep = ExtractorAgent.run world_offline maps_url_example.
Proof.
  eexists. split; [vm_compute; reflexivity|].
  split; [reflexivity|]. split; [reflexivity|].
  apply (run_workflow_report_counts world_offline maps_url_example).
  vm_compute. reflexivity.
Defined.

(** X23.  The report of a completed run contains the business name, the
    summary and the text of every citation. *)
Theorem run_workflow_report_content
        (w : World) (maps_url : string) (t : list Agent) (rep : Report) :
  run_workflow w maps_url = (t, inr (Completed rep)) ->
  contains (py_str (business_name rep)) (content rep) = true
  /\ contains (summary rep) (content rep) = true
  /\ (forall d c, Dict.lookup (citations rep) d = Some c ->
            contains c (content rep) = true).
Proof.
  intros H.
  destruct (completed_inv w maps_url t rep H)
    as (r & n & _ & _ & Bn & _ & _ & _ & _ & _ & _ & Cn & Cs & Cc).
  rewrite Bn. split; [exact Cn|]. split; [exact Cs|].
  intros d c L. apply (Cc d c), lookup_In, L.
Qed.

Lemma run_workflow_report_content_witness :
  exists rep,
    run_workflow world_offline maps_url_example = (all_agents, inr (Completed rep))
    /\ contains (py_str (business_name rep)) (content rep) = true
    /\ contains (summary rep) (content rep) = true
    /\ (forall d c, Dict.lookup (citations rep) d = Some c ->
              contains c (content rep) = true).
Proof.
  eexists. split; [vm_compute; reflexivity|].
  apply (run_workflow_report_content world_offline maps_url_example all_agents).
  vm_compute. reflexivity.
Defined.

(** X24.  Once the browser session found a name, all four agents run and
    the run can only fail at the output stage: it completes when the
    report file is written, and halts at "output" with the error of the
    write otherwise. *)
Theorem run_workflow_fails_only_at_output
        (w : World) (maps_url n : string) (a p : option string) :
  makedirs w (get_output_directory w) = inr tt ->
  forallb is_space maps_url = false ->
  scrape w maps_url = inr (Some n, a, p) ->
  n <> "" ->
  exists filepath text,
    (forall e, write_file w filepath text = inl e ->
          run_workflow w maps_url
          = (all_agents, inr (Halted "output" (VStr e))))
    /\ (write_file w filepath text = inr tt ->
        exists rep,
          run_workflow w maps_url = (all_agents, inr (Completed rep))
          /\ output_file rep = filepath
          /\ content rep = text).
Proof.
  intros M B S N.
  assert (U2 : nonempty (strip maps_url) = true).
  { destruct (nonempty (strip maps_url)) eqn:U; [reflexivity|].
    apply strip_empty_iff in U. congruence. }
  assert (U1 : nonempty maps_url = true).
  { destruct maps_url; [discriminate U2|reflexivity]. }
  destruct (run_workflow_with_name w maps_url n a p M U1 U2 S N)
    as (r & filename & text & rep & _ & _ & R & _ & Of & _ & _ & _ & _ & _ & _
        & Ct & _).
  exists (path_join (get_output_directory w) filename), text. split.
  - intros e W. rewrite R, W. reflexivity.
  - intros W. exists rep. rewrite R, W. auto.
Qed.

Lemma run_workflow_fails_only_at_output_witness :
  exists filepath text,
    (forall e, write_file world_disk_full filepath text = inl e ->
          run_workflow world_disk_full maps_url_example
          = (all_agents, inr (Halted "output" (VStr e))))
    /\ (write_file world_disk_full filepath text = inr tt ->
        exists rep,
          run_workflow world_disk_full maps_url_example
          = (all_agents, inr (Completed rep))
          /\ output_file rep = filepath
          /\ content rep = text).
Proof.
  apply (run_workflow_fails_only_at_output
           world_disk_full maps_url_example "Joe's Cafe"
           (Some "12 Main Street, Springfield") (Some "5551234567")).
  - reflexivity.
  - reflexivity.
  - reflexivity.
  - discriminate.
Defined.

End Pipeline.

(* ===================================================================== *)
(** * Theorems: what the summary text names *)
(* ===================================================================== *)

Section SummaryMentions.

Import PyStr SummaryAgent.

Lemma contains_join sep l d :
  In d l -> contains d (join sep l) = true.
Proof.
  induction l as [|x l IH]; intros I; [destruct I|].
  destruct l as [|y l].
  - destruct I as [<-|[]]. cbn [join].
    rewrite <- (append_nil_r x) at 2. apply contains_here.
  - change (join sep (x :: y :: l)) with (x ++ sep ++ join sep (y :: l)).
    destruct I as [<-|I].
    + apply contains_here.
    + apply contains_skip, contains_skip, IH, I.
Qed.

Ltac find_mention :=
  solve [ apply contains_here
        | apply contains_join; assumption
        | apply contains_skip; find_mention
        | apply contains_app_l; find_mention ].

(** X25.  Before the word count is looked at, the summary text names the
    business, each of the first three missing directories and every
    selected directory. *)
Theorem render_summary_mentions
        (business_name : value) (directories_checked : nat)
        (missing_directories selected_directories : list string) :
  let text := render_summary business_name directories_checked
                             missing_directories selected_directories in
  contains (py_str business_name) text = true
  /\ (forall d, In d (firstn 3 missing_directories) -> contains d text = true)
  /\ (forall d, In d selected_directories -> contains d text = true).
Proof.
  intros text. unfold text, render_summary. cbv zeta.
  generalize (py_str business_name). intros name.
  split; [|split].
  - destruct missing_directories as [|m ms];
      destruct selected_directories as [|s ss];
      try destruct (3 <? List.length (m :: ms))%nat;
      find_mention.
  - intros d I.
    destruct missing_directories as [|m ms]; [destruct I|].
    destruct selected_directories as [|s ss];
      destruct (3 <? List.length (m :: ms))%nat;
      find_mention.
  - intros d I.
    destruct selected_directories as [|s ss]; [destruct I|].
    destruct missing_directories as [|m ms];
      try destruct (3 <? List.length (m :: ms))%nat;
      find_mention.
Qed.

End SummaryMentions.
